(** * superflore: the PKGBUILD generator

    A shallow embedding of [superflore/generators/pkgbuild/pkgbuild.py]
    (class [PkgBuild]) and of the builder in
    [superflore/generators/pkgbuild/gen_packages.py], with the properties
    of the dependency classification and of the recipe rendering.

    Python objects are records, lists are lists, [str] is [string], and a
    raised exception is the [Raise] outcome of a [result]. *)

From Stdlib Require Import Ascii String.
From stdpp Require Import base list strings.

(** ** Python's [str] and [list] primitives used by the generator *)

Module Py.

(** [needle in haystack] for a list of strings. *)
Definition contains (l : list string) (x : string) : bool :=
  bool_decide (x ∈ l).

(** [s.split(sep)] for a one-character separator: never empty, one more
    piece than there are separators. *)
Fixpoint split (sep : ascii) (s : string) : list string :=
  match s with
  | EmptyString => [EmptyString]
  | String c rest =>
      if decide (c = sep) then EmptyString :: split sep rest
      else match split sep rest with
           | [] => [String c EmptyString]
           | piece :: pieces => String c piece :: pieces
           end
  end.

(** [s[n:]]. *)
Fixpoint slice_from (n : nat) (s : string) : string :=
  match n, s with
  | O, _ => s
  | S _, EmptyString => EmptyString
  | S k, String _ rest => slice_from k rest
  end.

(** [s.startswith(p)]. *)
Definition startswith (p s : string) : bool := String.prefix p s.

(** [s.replace(old, new, 1)]: the leftmost occurrence only. *)
Fixpoint replace_first (old new s : string) : string :=
  if startswith old s then new +:+ slice_from (String.length old) s
  else match s with
       | EmptyString => EmptyString
       | String c rest => String c (replace_first old new rest)
       end.

(** [sep.join(l)]. *)
Definition join (sep : string) (l : list string) : string :=
  String.concat sep l.

(** How an f-string prints a field that may still be [None]. *)
Definition fmt (o : option string) : string :=
  match o with
  | Some s => s
  | None => "None"
  end.

End Py.

(** ** Exceptions and outcomes *)

(** The exceptions the generator raises or meets: [UnknownBuildType] and
    [UnresolvedDependency] come from [superflore.exceptions], the others are
    Python's own. *)
Inductive exn : Type :=
  | UnknownBuildType (build_type : string)
  | UnresolvedDependency
  | IndexError
  | AttributeError
  | KeyError
  | RuntimeError (message : string)
  | OtherException (what : string).

(** What a call comes to: a value, or a raised exception. *)
Inductive result (A : Type) : Type :=
  | Ok (value : A)
  | Raise (e : exn).

Arguments Ok {A} value.
Arguments Raise {A} e.

Definition result_map {A B : Type} (f : A → B) (r : result A) : result B :=
  match r with
  | Ok a => Ok (f a)
  | Raise e => Raise e
  end.

(** ** pkgbuild.py *)

(** [depend_only_pkgs]. *)
Definition depend_only_pkgs : list string :=
  ["dev-util/gperf"; "app-doc/doxygen"; "virtual/pkgconfig"].

(** [class pkgbuild_keyword]. *)
Record pkgbuild_keyword := mkKeyword {
  arch : string;
  stable : bool
}.

Definition to_string (k : pkgbuild_keyword) : string :=
  if k.(stable) then k.(arch) else "~" +:+ k.(arch).

(** [class PkgBuild]: the attributes [__init__] creates, with their names.
    [None] is a value of [src_uri], [distro], [base_yml], [version], [name]
    and [patches]. *)
Record PkgBuild := mkPkgBuild {
  eapi : string;
  description : string;
  homepage : string;
  src_uri : option string;
  upstream_license : list string;
  keys : list pkgbuild_keyword;
  rdepends : list string;
  rdepends_external : list string;
  depends : list string;
  depends_external : list string;
  tdepends : list string;
  tdepends_external : list string;
  distro : option string;
  cmake_package : bool;
  base_yml : option string;
  version : option string;
  unresolved_deps : list string;
  name : option string;
  has_patches : bool;
  build_type : string;
  is_ros2 : bool;
  python_3 : bool;
  patches : option (list string);
  illegal_desc_chars : string
}.

Definition set_description (v : string) (self : PkgBuild) : PkgBuild :=
  {| eapi := self.(eapi); description := v; homepage := self.(homepage);
     src_uri := self.(src_uri); upstream_license := self.(upstream_license);
     keys := self.(keys); rdepends := self.(rdepends);
     rdepends_external := self.(rdepends_external);
     depends := self.(depends); depends_external := self.(depends_external);
     tdepends := self.(tdepends);
     tdepends_external := self.(tdepends_external); distro := self.(distro);
     cmake_package := self.(cmake_package); base_yml := self.(base_yml);
     version := self.(version); unresolved_deps := self.(unresolved_deps);
     name := self.(name); has_patches := self.(has_patches);
     build_type := self.(build_type); is_ros2 := self.(is_ros2);
     python_3 := self.(python_3); patches := self.(patches);
     illegal_desc_chars := self.(illegal_desc_chars) |}.

Definition set_homepage (v : string) (self : PkgBuild) : PkgBuild :=
  {| eapi := self.(eapi); description := self.(description); homepage := v;
     src_uri := self.(src_uri); upstream_license := self.(upstream_license);
     keys := self.(keys); rdepends := self.(rdepends);
     rdepends_external := self.(rdepends_external);
     depends := self.(depends); depends_external := self.(depends_external);
     tdepends := self.(tdepends);
     tdepends_external := self.(tdepends_external); distro := self.(distro);
     cmake_package := self.(cmake_package); base_yml := self.(base_yml);
     version := self.(version); unresolved_deps := self.(unresolved_deps);
     name := self.(name); has_patches := self.(has_patches);
     build_type := self.(build_type); is_ros2 := self.(is_ros2);
     python_3 := self.(python_3); patches := self.(patches);
     illegal_desc_chars := self.(illegal_desc_chars) |}.

Definition set_src_uri (v : option string) (self : PkgBuild) : PkgBuild :=
  {| eapi := self.(eapi); description := self.(description);
     homepage := self.(homepage); src_uri := v;
     upstream_license := self.(upstream_license); keys := self.(keys);
     rdepends := self.(rdepends);
     rdepends_external := self.(rdepends_external);
     depends := self.(depends); depends_external := self.(depends_external);
     tdepends := self.(tdepends);
     tdepends_external := self.(tdepends_external); distro := self.(distro);
     cmake_package := self.(cmake_package); base_yml := self.(base_yml);
     version := self.(version); unresolved_deps := self.(unresolved_deps);
     name := self.(name); has_patches := self.(has_patches);
     build_type := self.(build_type); is_ros2 := self.(is_ros2);
     python_3 := self.(python_3); patches := self.(patches);
     illegal_desc_chars := self.(illegal_desc_chars) |}.

Definition set_upstream_license (v : list string) (self : PkgBuild) : PkgBuild :=
  {| eapi := self.(eapi); description := self.(description);
     homepage := self.(homepage); src_uri := self.(src_uri);
     upstream_license := v; keys := self.(keys); rdepends := self.(rdepends);
     rdepends_external := self.(rdepends_external);
     depends := self.(depends); depends_external := self.(depends_external);
     tdepends := self.(tdepends);
     tdepends_external := self.(tdepends_external); distro := self.(distro);
     cmake_package := self.(cmake_package); base_yml := self.(base_yml);
     version := self.(version); unresolved_deps := self.(unresolved_deps);
     name := self.(name); has_patches := self.(has_patches);
     build_type := self.(build_type); is_ros2 := self.(is_ros2);
     python_3 := self.(python_3); patches := self.(patches);
     illegal_desc_chars := self.(illegal_desc_chars) |}.

Definition set_keys (v : list pkgbuild_keyword) (self : PkgBuild) : PkgBuild :=
  {| eapi := self.(eapi); description := self.(description);
     homepage := self.(homepage); src_uri := self.(src_uri);
     upstream_license := self.(upstream_license); keys := v;
     rdepends := self.(rdepends);
     rdepends_external := self.(rdepends_external);
     depends := self.(depends); depends_external := self.(depends_external);
     tdepends := self.(tdepends);
     tdepends_external := self.(tdepends_external); distro := self.(distro);
     cmake_package := self.(cmake_package); base_yml := self.(base_yml);
     version := self.(version); unresolved_deps := self.(unresolved_deps);
     name := self.(name); has_patches := self.(has_patches);
     build_type := self.(build_type); is_ros2 := self.(is_ros2);
     python_3 := self.(python_3); patches := self.(patches);
     illegal_desc_chars := self.(illegal_desc_chars) |}.

Definition set_rdepends (v : list string) (self : PkgBuild) : PkgBuild :=
  {| eapi := self.(eapi); description := self.(description);
     homepage := self.(homepage); src_uri := self.(src_uri);
     upstream_license := self.(upstream_license); keys := self.(keys);
     rdepends := v; rdepends_external := self.(rdepends_external);
     depends := self.(depends); depends_external := self.(depends_external);
     tdepends := self.(tdepends);
     tdepends_external := self.(tdepends_external); distro := self.(distro);
     cmake_package := self.(cmake_package); base_yml := self.(base_yml);
     version := self.(version); unresolved_deps := self.(unresolved_deps);
     name := self.(name); has_patches := self.(has_patches);
     build_type := self.(build_type); is_ros2 := self.(is_ros2);
     python_3 := self.(python_3); patches := self.(patches);
     illegal_desc_chars := self.(illegal_desc_chars) |}.

Definition set_rdepends_external (v : list string) (self : PkgBuild) : PkgBuild :=
  {| eapi := self.(eapi); description := self.(description);
     homepage := self.(homepage); src_uri := self.(src_uri);
     upstream_license := self.(upstream_license); keys := self.(keys);
     rdepends := self.(rdepends); rdepends_external := v;
     depends := self.(depends); depends_external := self.(depends_external);
     tdepends := self.(tdepends);
     tdepends_external := self.(tdepends_external); distro := self.(distro);
     cmake_package := self.(cmake_package); base_yml := self.(base_yml);
     version := self.(version); unresolved_deps := self.(unresolved_deps);
     name := self.(name); has_patches := self.(has_patches);
     build_type := self.(build_type); is_ros2 := self.(is_ros2);
     python_3 := self.(python_3); patches := self.(patches);
     illegal_desc_chars := self.(illegal_desc_chars) |}.

Definition set_depends (v : list string) (self : PkgBuild) : PkgBuild :=
  {| eapi := self.(eapi); description := self.(description);
     homepage := self.(homepage); src_uri := self.(src_uri);
     upstream_license := self.(upstream_license); keys := self.(keys);
     rdepends := self.(rdepends);
     rdepends_external := self.(rdepends_external); depends := v;
     depends_external := self.(depends_external);
     tdepends := self.(tdepends);
     tdepends_external := self.(tdepends_external); distro := self.(distro);
     cmake_package := self.(cmake_package); base_yml := self.(base_yml);
     version := self.(version); unresolved_deps := self.(unresolved_deps);
     name := self.(name); has_patches := self.(has_patches);
     build_type := self.(build_type); is_ros2 := self.(is_ros2);
     python_3 := self.(python_3); patches := self.(patches);
     illegal_desc_chars := self.(illegal_desc_chars) |}.

Definition set_depends_external (v : list string) (self : PkgBuild) : PkgBuild :=
  {| eapi := self.(eapi); description := self.(description);
     homepage := self.(homepage); src_uri := self.(src_uri);
     upstream_license := self.(upstream_license); keys := self.(keys);
     rdepends := self.(rdepends);
     rdepends_external := self.(rdepends_external);
     depends := self.(depends); depends_external := v;
     tdepends := self.(tdepends);
     tdepends_external := self.(tdepends_external); distro := self.(distro);
     cmake_package := self.(cmake_package); base_yml := self.(base_yml);
     version := self.(version); unresolved_deps := self.(unresolved_deps);
     name := self.(name); has_patches := self.(has_patches);
     build_type := self.(build_type); is_ros2 := self.(is_ros2);
     python_3 := self.(python_3); patches := self.(patches);
     illegal_desc_chars := self.(illegal_desc_chars) |}.

Definition set_tdepends (v : list string) (self : PkgBuild) : PkgBuild :=
  {| eapi := self.(eapi); description := self.(description);
     homepage := self.(homepage); src_uri := self.(src_uri);
     upstream_license := self.(upstream_license); keys := self.(keys);
     rdepends := self.(rdepends);
     rdepends_external := self.(rdepends_external);
     depends := self.(depends); depends_external := self.(depends_external);
     tdepends := v; tdepends_external := self.(tdepends_external);
     distro := self.(distro); cmake_package := self.(cmake_package);
     base_yml := self.(base_yml); version := self.(version);
     unresolved_deps := self.(unresolved_deps); name := self.(name);
     has_patches := self.(has_patches); build_type := self.(build_type);
     is_ros2 := self.(is_ros2); python_3 := self.(python_3);
     patches := self.(patches);
     illegal_desc_chars := self.(illegal_desc_chars) |}.

Definition set_tdepends_external (v : list string) (self : PkgBuild) : PkgBuild :=
  {| eapi := self.(eapi); description := self.(description);
     homepage := self.(homepage); src_uri := self.(src_uri);
     upstream_license := self.(upstream_license); keys := self.(keys);
     rdepends := self.(rdepends);
     rdepends_external := self.(rdepends_external);
     depends := self.(depends); depends_external := self.(depends_external);
     tdepends := self.(tdepends); tdepends_external := v;
     distro := self.(distro); cmake_package := self.(cmake_package);
     base_yml := self.(base_yml); version := self.(version);
     unresolved_deps := self.(unresolved_deps); name := self.(name);
     has_patches := self.(has_patches); build_type := self.(build_type);
     is_ros2 := self.(is_ros2); python_3 := self.(python_3);
     patches := self.(patches);
     illegal_desc_chars := self.(illegal_desc_chars) |}.

Definition set_distro (v : option string) (self : PkgBuild) : PkgBuild :=
  {| eapi := self.(eapi); description := self.(description);
     homepage := self.(homepage); src_uri := self.(src_uri);
     upstream_license := self.(upstream_license); keys := self.(keys);
     rdepends := self.(rdepends);
     rdepends_external := self.(rdepends_external);
     depends := self.(depends); depends_external := self.(depends_external);
     tdepends := self.(tdepends);
     tdepends_external := self.(tdepends_external); distro := v;
     cmake_package := self.(cmake_package); base_yml := self.(base_yml);
     version := self.(version); unresolved_deps := self.(unresolved_deps);
     name := self.(name); has_patches := self.(has_patches);
     build_type := self.(build_type); is_ros2 := self.(is_ros2);
     python_3 := self.(python_3); patches := self.(patches);
     illegal_desc_chars := self.(illegal_desc_chars) |}.

Definition set_version (v : option string) (self : PkgBuild) : PkgBuild :=
  {| eapi := self.(eapi); description := self.(description);
     homepage := self.(homepage); src_uri := self.(src_uri);
     upstream_license := self.(upstream_license); keys := self.(keys);
     rdepends := self.(rdepends);
     rdepends_external := self.(rdepends_external);
     depends := self.(depends); depends_external := self.(depends_external);
     tdepends := self.(tdepends);
     tdepends_external := self.(tdepends_external); distro := self.(distro);
     cmake_package := self.(cmake_package); base_yml := self.(base_yml);
     version := v; unresolved_deps := self.(unresolved_deps);
     name := self.(name); has_patches := self.(has_patches);
     build_type := self.(build_type); is_ros2 := self.(is_ros2);
     python_3 := self.(python_3); patches := self.(patches);
     illegal_desc_chars := self.(illegal_desc_chars) |}.

Definition set_name (v : option string) (self : PkgBuild) : PkgBuild :=
  {| eapi := self.(eapi); description := self.(description);
     homepage := self.(homepage); src_uri := self.(src_uri);
     upstream_license := self.(upstream_license); keys := self.(keys);
     rdepends := self.(rdepends);
     rdepends_external := self.(rdepends_external);
     depends := self.(depends); depends_external := self.(depends_external);
     tdepends := self.(tdepends);
     tdepends_external := self.(tdepends_external); distro := self.(distro);
     cmake_package := self.(cmake_package); base_yml := self.(base_yml);
     version := self.(version); unresolved_deps := self.(unresolved_deps);
     name := v; has_patches := self.(has_patches);
     build_type := self.(build_type); is_ros2 := self.(is_ros2);
     python_3 := self.(python_3); patches := self.(patches);
     illegal_desc_chars := self.(illegal_desc_chars) |}.

Definition set_has_patches (v : bool) (self : PkgBuild) : PkgBuild :=
  {| eapi := self.(eapi); description := self.(description);
     homepage := self.(homepage); src_uri := self.(src_uri);
     upstream_license := self.(upstream_license); keys := self.(keys);
     rdepends := self.(rdepends);
     rdepends_external := self.(rdepends_external);
     depends := self.(depends); depends_external := self.(depends_external);
     tdepends := self.(tdepends);
     tdepends_external := self.(tdepends_external); distro := self.(distro);
     cmake_package := self.(cmake_package); base_yml := self.(base_yml);
     version := self.(version); unresolved_deps := self.(unresolved_deps);
     name := self.(name); has_patches := v; build_type := self.(build_type);
     is_ros2 := self.(is_ros2); python_3 := self.(python_3);
     patches := self.(patches);
     illegal_desc_chars := self.(illegal_desc_chars) |}.

Definition set_build_type (v : string) (self : PkgBuild) : PkgBuild :=
  {| eapi := self.(eapi); description := self.(description);
     homepage := self.(homepage); src_uri := self.(src_uri);
     upstream_license := self.(upstream_license); keys := self.(keys);
     rdepends := self.(rdepends);
     rdepends_external := self.(rdepends_external);
     depends := self.(depends); depends_external := self.(depends_external);
     tdepends := self.(tdepends);
     tdepends_external := self.(tdepends_external); distro := self.(distro);
     cmake_package := self.(cmake_package); base_yml := self.(base_yml);
     version := self.(version); unresolved_deps := self.(unresolved_deps);
     name := self.(name); has_patches := self.(has_patches); build_type := v;
     is_ros2 := self.(is_ros2); python_3 := self.(python_3);
     patches := self.(patches);
     illegal_desc_chars := self.(illegal_desc_chars) |}.

Definition set_is_ros2 (v : bool) (self : PkgBuild) : PkgBuild :=
  {| eapi := self.(eapi); description := self.(description);
     homepage := self.(homepage); src_uri := self.(src_uri);
     upstream_license := self.(upstream_license); keys := self.(keys);
     rdepends := self.(rdepends);
     rdepends_external := self.(rdepends_external);
     depends := self.(depends); depends_external := self.(depends_external);
     tdepends := self.(tdepends);
     tdepends_external := self.(tdepends_external); distro := self.(distro);
     cmake_package := self.(cmake_package); base_yml := self.(base_yml);
     version := self.(version); unresolved_deps := self.(unresolved_deps);
     name := self.(name); has_patches := self.(has_patches);
     build_type := self.(build_type); is_ros2 := v;
     python_3 := self.(python_3); patches := self.(patches);
     illegal_desc_chars := self.(illegal_desc_chars) |}.

Definition set_python_3 (v : bool) (self : PkgBuild) : PkgBuild :=
  {| eapi := self.(eapi); description := self.(description);
     homepage := self.(homepage); src_uri := self.(src_uri);
     upstream_license := self.(upstream_license); keys := self.(keys);
     rdepends := self.(rdepends);
     rdepends_external := self.(rdepends_external);
     depends := self.(depends); depends_external := self.(depends_external);
     tdepends := self.(tdepends);
     tdepends_external := self.(tdepends_external); distro := self.(distro);
     cmake_package := self.(cmake_package); base_yml := self.(base_yml);
     version := self.(version); unresolved_deps := self.(unresolved_deps);
     name := self.(name); has_patches := self.(has_patches);
     build_type := self.(build_type); is_ros2 := self.(is_ros2);
     python_3 := v; patches := self.(patches);
     illegal_desc_chars := self.(illegal_desc_chars) |}.

Definition set_patches (v : option (list string)) (self : PkgBuild) : PkgBuild :=
  {| eapi := self.(eapi); description := self.(description);
     homepage := self.(homepage); src_uri := self.(src_uri);
     upstream_license := self.(upstream_license); keys := self.(keys);
     rdepends := self.(rdepends);
     rdepends_external := self.(rdepends_external);
     depends := self.(depends); depends_external := self.(depends_external);
     tdepends := self.(tdepends);
     tdepends_external := self.(tdepends_external); distro := self.(distro);
     cmake_package := self.(cmake_package); base_yml := self.(base_yml);
     version := self.(version); unresolved_deps := self.(unresolved_deps);
     name := self.(name); has_patches := self.(has_patches);
     build_type := self.(build_type); is_ros2 := self.(is_ros2);
     python_3 := self.(python_3); patches := v;
     illegal_desc_chars := self.(illegal_desc_chars) |}.

(** One double quote, and the line feed. *)
Definition dq : string := String (ascii_of_nat 34) EmptyString.
Definition nl : string := String (ascii_of_nat 10) EmptyString.

(** [illegal_desc_chars]: the brackets, bar, caret, dollar, backslash and
    hash, then tab, line feed, carriage return, vertical tab and form feed
    (codes 9, 10, 13, 11, 12), then the three quote characters. *)
Definition default_illegal_desc_chars : string :=
  "()[]{}|^$\#" +:+
  string_of_list_ascii (map ascii_of_nat [9; 10; 13; 11; 12]) +:+
  "'" +:+ dq +:+ "`".

(** [PkgBuild.__init__]. *)
Definition PkgBuild_init : PkgBuild :=
  {| eapi := "6";
     description := "";
     homepage := "https://wiki.ros.org";
     src_uri := None;
     upstream_license := ["LGPL-2"];
     keys := [];
     rdepends := [];
     rdepends_external := [];
     depends := [];
     depends_external := [];
     tdepends := [];
     tdepends_external := [];
     distro := None;
     cmake_package := true;
     base_yml := None;
     version := None;
     unresolved_deps := [];
     name := None;
     has_patches := false;
     build_type := "catkin";
     is_ros2 := false;
     python_3 := true;
     patches := Some [];
     illegal_desc_chars := default_illegal_desc_chars |}.

(** [PkgBuild.add_build_depend]. *)
Definition add_build_depend (depend : string) (internal : bool)
    (self : PkgBuild) : PkgBuild :=
  if Py.contains self.(rdepends) depend then self
  else if Py.contains self.(rdepends_external) depend then self
  else if internal then set_depends (self.(depends) ++ [depend]) self
  else set_depends_external (self.(depends_external) ++ [depend]) self.

(** [PkgBuild.add_run_depend]. *)
Definition add_run_depend (rdepend : string) (internal : bool)
    (self : PkgBuild) : PkgBuild :=
  if Py.contains depend_only_pkgs rdepend && negb internal
  then set_depends_external (self.(depends_external) ++ [rdepend]) self
  else if internal then set_rdepends (self.(rdepends) ++ [rdepend]) self
  else set_rdepends_external (self.(rdepends_external) ++ [rdepend]) self.

(** [PkgBuild.add_test_depend]. *)
Definition add_test_depend (tdepend : string) (internal : bool)
    (self : PkgBuild) : PkgBuild :=
  if negb internal
  then set_tdepends_external (self.(tdepends_external) ++ [tdepend]) self
  else set_tdepends (self.(tdepends) ++ [tdepend]) self.

(** [PkgBuild.add_keyword]. *)
Definition add_keyword (keyword : string) (stable : bool)
    (self : PkgBuild) : PkgBuild :=
  set_keys (self.(keys) ++ [mkKeyword keyword stable]) self.

(** [PkgBuild.get_inherit_line]. *)
Definition get_inherit_line (self : PkgBuild) : result string :=
  if Py.contains ["catkin"; "cmake"] self.(build_type)
  then Ok ("inherit ros-cmake" +:+ nl +:+ nl)
  else if bool_decide (self.(build_type) = "ament_python")
  then Ok ("inherit ament-python" +:+ nl +:+ nl)
  else if bool_decide (self.(build_type) = "ament_cmake")
  then Ok ("inherit ament-cmake" +:+ nl +:+ nl)
  else Raise (UnknownBuildType self.(build_type)).

(** [PkgBuild.get_unresolved]. *)
Definition get_unresolved (self : PkgBuild) : list string :=
  self.(unresolved_deps).

(** [result] as a monad, for the statements that may raise in sequence. *)
Global Instance result_ret : MRet result := λ A a, Ok a.
Global Instance result_bind : MBind result :=
  λ A B f r, match r with Ok a => f a | Raise e => Raise e end.

(** [l[i]] on a list. *)
Definition index {A : Type} (l : list A) (i : nat) : result A :=
  match l !! i with
  | Some x => Ok x
  | None => Raise IndexError
  end.

(** [v.split(sep)] on an attribute that may be [None]. *)
Definition attr_split (sep : ascii) (v : option string) : result (list string) :=
  match v with
  | Some s => Ok (Py.split sep s)
  | None => Raise AttributeError
  end.

(** The loop
    [for i, dep in enumerate(dependencies):
       if dep.startswith("python3"):
         dependencies[i] = dep.replace("python3", "python", 1)]
    over the list it updates in place: [i] is the iterator's position and
    [todo] bounds the steps left (the list keeps its length). *)
Fixpoint python3_loop (todo i : nat) (dependencies : list string) : list string :=
  match todo with
  | O => dependencies
  | S todo' =>
      match dependencies !! i with
      | None => dependencies
      | Some dep =>
          python3_loop todo' (S i)
            (if Py.startswith "python3" dep
             then <[i := Py.replace_first "python3" "python" dep]> dependencies
             else dependencies)
      end
  end.

Definition rename_python3 (dependencies : list string) : list string :=
  python3_loop (length dependencies) 0 dependencies.

(** [f"ros-{self.distro}-{d}"]. *)
Definition ros_name (self : PkgBuild) (d : string) : string :=
  "ros-" +:+ Py.fmt self.(distro) +:+ "-" +:+ d.

(** The [makedepends=(...)] and [depends=(...)] entries of the render. *)
Definition makedepends_entry (self : PkgBuild) : string :=
  let ros_deps := map (ros_name self) self.(depends) in
  let dependencies := rename_python3 (ros_deps ++ self.(depends_external)) in
  "makedepends=(" +:+ Py.join " " dependencies +:+ ")".

Definition depends_entry (self : PkgBuild) : string :=
  let ros_rdeps := map (ros_name self) self.(rdepends) in
  let rdependencies := rename_python3 (ros_rdeps ++ self.(rdepends_external)) in
  "depends=(" +:+ Py.join " " rdependencies +:+ ")".

(** The two shell blocks, each a triple-quoted f-string. *)
Definition build_block (self : PkgBuild) : string :=
  let d := Py.fmt self.(distro) in
  nl +:+ "build() {" +:+ nl +:+
  "    cd " +:+ dq +:+ "${srcdir}" +:+ dq +:+ nl +:+
  "    [ -f /opt/ros/" +:+ d +:+ "/setup.bash ] && source /opt/ros/" +:+ d +:+
    "/setup.bash" +:+ nl +:+
  "    colcon build" +:+ nl +:+
  "}" +:+ nl.

Definition package_block (self : PkgBuild) : string :=
  let d := Py.fmt self.(distro) in
  let root := dq +:+ "${pkgdir}" +:+ dq +:+ "/opt/ros/" +:+ d in
  nl +:+ "package() {" +:+ nl +:+
  "    cd " +:+ dq +:+ "${srcdir}" +:+ dq +:+ nl +:+
  "    colcon build --install-base " +:+ root +:+ nl +:+
  "    rm " +:+ root +:+ "/*setup*" +:+ nl +:+
  "    rm " +:+ root +:+ "/COLCON_IGNORE" +:+ nl +:+
  "    rm " +:+ root +:+ "/.colcon_install_layout" +:+ nl +:+
  "    chown -R ros:ros " +:+ root +:+ nl +:+
  "    chmod -R 777 " +:+ root +:+ nl +:+
  "}" +:+ nl.

(** [superflore.PackageMetadata]: the four attributes the builder reads. *)
Record PackageMetadata := mkPackageMetadata {
  pkg_upstream_license : list string;
  pkg_description : string;
  pkg_homepage : string;
  pkg_build_type : string
}.

(** What the collaborators of [gen_packages.py] hand to the builder for one
    package: the distribution's name, the archive reference, the package
    names of the distribution, the dependency walker's four answers in the
    order the loops meet them, and how the fetch of the package XML ends. *)
Record provider := mkProvider {
  distro_name : string;
  tar_uri : string;
  package_names : list string;
  buildtool_depends : list string;
  build_depends : list string;
  run_depends : list string;
  test_depends : list string;
  package_xml : result string
}.

(** [no_python3], [org] and [org_license] of [gen_packages.py]. *)
Definition no_python3 : list string := ["tf"].
Definition org : string := "Open Source Robotics Foundation".
Definition org_license : string := "BSD".

(** What [regenerate_pkg] returns: nothing for a recipe that is kept, the
    recipe object with the text to write, or the unresolved names. *)
Inductive regenerated : Type :=
  | UpToDate
  | Generated (current : PkgBuild) (pkgbuild_text : string)
  | NotGenerated (unresolved : list string).

(** ** The vocabulary of the specification *)

(** [sep in s]. *)
Fixpoint has_char (sep : ascii) (s : string) : bool :=
  match s with
  | EmptyString => false
  | String c rest => bool_decide (c = sep) || has_char sep rest
  end.

(** The substring of [s] before the first [sep] (all of [s] without one). *)
Fixpoint before_first (sep : ascii) (s : string) : string :=
  match s with
  | EmptyString => EmptyString
  | String c rest =>
      if decide (c = sep) then EmptyString else String c (before_first sep rest)
  end.

(** The substring of [s] after the first [sep] (empty without one). *)
Fixpoint after_first (sep : ascii) (s : string) : string :=
  match s with
  | EmptyString => EmptyString
  | String c rest => if decide (c = sep) then rest else after_first sep rest
  end.

(** The four recognized build types. *)
Definition recognized_build_types : list string :=
  ["catkin"; "cmake"; "ament_python"; "ament_cmake"].

(** An entry that begins with [python3] begins with [python] instead. *)
Definition python3_to_python (dep : string) : string :=
  if Py.startswith "python3" dep then "python" +:+ Py.slice_from 7 dep else dep.

(** The names of the [makedepends] field as the specification lists them:
    the internal build dependencies under the distribution's prefix, then
    the external ones, each entry renamed. *)
Definition makedepends_names (self : PkgBuild) : list string :=
  map python3_to_python
    (map (λ d, "ros-" +:+ Py.fmt self.(distro) +:+ "-" +:+ d) self.(depends)
     ++ self.(depends_external)).

(** The dependency buckets, and in how many of them a name is held. *)
Definition build_run_buckets (self : PkgBuild) : list (list string) :=
  [self.(depends); self.(depends_external);
   self.(rdepends); self.(rdepends_external)].

Definition test_buckets (self : PkgBuild) : list (list string) :=
  [self.(tdepends); self.(tdepends_external)].

Definition all_buckets (self : PkgBuild) : list (list string) :=
  build_run_buckets self ++ test_buckets self.

Definition holders (d : string) (buckets : list (list string)) : nat :=
  length (filter (λ bucket, d ∈ bucket) buckets).

(** Every attribute that is not one of the six buckets. *)
Definition attributes_besides_buckets (self : PkgBuild) :=
  (self.(eapi), self.(description), self.(homepage), self.(src_uri),
   self.(upstream_license), self.(keys), self.(distro),
   self.(cmake_package), self.(base_yml), self.(version),
   self.(unresolved_deps), self.(name), self.(has_patches),
   self.(build_type), self.(is_ros2), self.(python_3), self.(patches),
   self.(illegal_desc_chars)).

(** Every name sits in a bucket of its own kind: the internal buckets hold
    names of the distribution's packages, the external ones hold others. *)
Definition classified_by (names : list string) (self : PkgBuild) : Prop :=
  (∀ d, d ∈ self.(depends) → d ∈ names) ∧
  (∀ d, d ∈ self.(depends_external) → d ∉ names) ∧
  (∀ d, d ∈ self.(rdepends) → d ∈ names) ∧
  (∀ d, d ∈ self.(rdepends_external) → d ∉ names) ∧
  (∀ d, d ∈ self.(tdepends) → d ∈ names) ∧
  (∀ d, d ∈ self.(tdepends_external) → d ∉ names).

(** While only run dependencies have been inserted: no internal build
    dependency yet, and [depend_only_pkgs] decides between the two external
    buckets. *)
Definition run_phase (self : PkgBuild) : Prop :=
  self.(depends) = [] ∧
  (∀ d, d ∈ self.(depends_external) → d ∈ depend_only_pkgs) ∧
  (∀ d, d ∈ self.(rdepends_external) → d ∉ depend_only_pkgs).

(** No name is held by a build bucket and by a run bucket. *)
Definition build_apart_from_run (self : PkgBuild) : Prop :=
  ∀ d, (d ∈ depends self ∨ d ∈ depends_external self) →
       (d ∉ rdepends self) ∧ (d ∉ rdepends_external self).

(** The calls a client makes on a recipe object. *)
Inductive call : Type :=
  | AddBuildDepend (depend : string) (internal : bool)
  | AddRunDepend (rdepend : string) (internal : bool)
  | AddTestDepend (tdepend : string) (internal : bool)
  | AddKeyword (keyword : string) (stable : bool)
  | GetInheritLine
  | GetPkgbuildText (distributor license_text : string)
  | GetUnresolved.

(** Modelled from the spec: [sanitize_string] of [superflore.utils], which
    is not among the source files; it removes each character of the illegal
    set from the raw description. *)
Fixpoint sanitize_string_model (s illegal : string) : string :=
  match s with
  | EmptyString => EmptyString
  | String c rest =>
      if bool_decide (c ∈ list_ascii_of_string illegal)
      then sanitize_string_model rest illegal
      else String c (sanitize_string_model rest illegal)
  end.

(** Modelled from the spec: [trim_string] of [superflore.utils], which is
    not among the source files; it cuts a text longer than the maximum
    field length and ends it with a marker, both of them configuration. *)
Definition trim_string_model (max_length : nat) (marker : string)
    (s : string) : string :=
  if String.length s <? max_length then s
  else String.substring 0 (max_length - String.length marker) s +:+ marker.

(** Modelled from the spec: the constructor of [superflore.PackageMetadata],
    which is not among the source files; it gives the structured metadata
    (license, description, homepage, build type) of a package and may fail.
    This instance reads a four-line text as these four and raises
    [KeyError] on any other text. *)
Definition PackageMetadata_model (pkg_xml : string) : result PackageMetadata :=
  match Py.split (ascii_of_nat 10) pkg_xml with
  | [l; d; h; b] => Ok (mkPackageMetadata [l] d h b)
  | _ => Raise KeyError
  end.

(** ** Further code of the two files *)

(** [pkgbuild_keyword.__eq__]: two keywords are equal when they print
    alike. *)
Definition keyword_eq (self other : pkgbuild_keyword) : bool :=
  bool_decide (to_string self = to_string other).

(** [PkgBuild.get_python_compat]. *)
Definition get_python_compat (python_versions : list string) : result string :=
  ver_string ←
    (if 1 <? length python_versions
     then Ok ("{" +:+ Py.join "," python_versions +:+ "}")
     else index python_versions 0);
  Ok ("PYTHON_COMPAT=( python" +:+ ver_string +:+ " )" +:+ nl +:+ nl).

(** [s.lstrip(chars)]: the characters of [chars] are a set, and the
    leading characters of [s] that are in it go. *)
Fixpoint lstrip (chars s : string) : string :=
  match s with
  | EmptyString => EmptyString
  | String c rest => if has_char c chars then lstrip chars rest else s
  end.

(** [s.rstrip(chars)]: the same at the end of [s]. *)
Fixpoint rstrip (chars s : string) : string :=
  match s with
  | EmptyString => EmptyString
  | String c rest =>
      match rstrip chars rest with
      | EmptyString =>
          if has_char c chars then EmptyString else String c EmptyString
      | kept => String c kept
      end
  end.

(** The two paths of [regenerate_pkg]:
    ['{0}/ros-{1}/{2}/'.format(repo_dir, distro.name, pkg)] and
    [repo_dir + '/ros-{0}/{1}/{1}.pkgbuild'.format(distro.name, pkg)]. *)
Definition recipe_prefix (repo_dir distro pkg : string) : string :=
  repo_dir +:+ "/ros-" +:+ distro +:+ "/" +:+ pkg +:+ "/".

Definition pkgbuild_name (repo_dir distro pkg : string) : string :=
  repo_dir +:+ ("/ros-" +:+ distro +:+ "/" +:+ pkg +:+ "/" +:+ pkg +:+
                ".pkgbuild").

(** [previous_version] of [regenerate_pkg], for the first existing recipe
    file: [existing[0].lstrip(prefix).rstrip('.pkgbuild')]. *)
Definition previous_version (prefix existing0 : string) : string :=
  rstrip ".pkgbuild" (lstrip prefix existing0).

(** Every character of [s] is one of [chars]. *)
Fixpoint all_in (chars s : string) : bool :=
  match s with
  | EmptyString => true
  | String c rest => has_char c chars && all_in chars rest
  end.

(** The last character of a string. *)
Fixpoint last_char (s : string) : option ascii :=
  match s with
  | EmptyString => None
  | String c EmptyString => Some c
  | String _ rest => last_char rest
  end.

(** The names of the [depends] field: the internal run dependencies under
    the distribution's prefix, then the external ones, each entry renamed. *)
Definition depends_names (self : PkgBuild) : list string :=
  map python3_to_python
    (map (λ d, "ros-" +:+ Py.fmt self.(distro) +:+ "-" +:+ d) self.(rdepends)
     ++ self.(rdepends_external)).

(** How the seventeen entries of a recipe begin, in their order. *)
Definition entry_keys : list string :=
  [ "# Script generated with superflore";
    "# Maintainer: ";
    "pkgname='ros-";
    "pkgdesc=";
    "url=";
    "pkgver=";
    "arch=('any')";
    "pkgrel=";
    "license=(";
    "epoch=0";
    "groups=('ros' 'ros-";
    "makedepends=(";
    "depends=(";
    "source=(";
    "md5sums=('SKIP')";
    nl +:+ "build() {";
    nl +:+ "package() {" ].

(** ** Sample inputs *)

(** The helpers of [superflore.utils] at a field length of 80 and the
    marker [[...]]. *)
Definition sample_trim : string → string := trim_string_model 80 "[...]".

(** A recipe object as [regenerate_pkg] hands it to the render. *)
Definition sample_recipe (pkg_version : string) : PkgBuild :=
  set_version (Some pkg_version)
    (set_name (Some "foo")
       (set_distro (Some "humble")
          (set_depends_external ["python3-numpy"]
             (set_depends ["roscpp"] PkgBuild_init)))).

(** What the collaborators answer for a package [foo] of a distribution
    with four packages. *)
Definition sample_provider (xml : result string) : provider :=
  {| distro_name := "humble";
     tar_uri := "https://example.org/foo-release.tar.gz";
     package_names := ["foo"; "roscpp"; "std_msgs"; "catkin"];
     buildtool_depends := ["catkin"];
     build_depends := ["roscpp"; "python3-numpy"; "app-doc/doxygen"];
     run_depends := ["roscpp"; "std_msgs"; "app-doc/doxygen"; "python3-yaml"];
     test_depends := ["roscpp"; "gtest"];
     package_xml := xml |}.

Definition sample_xml : string :=
  "BSD" +:+ nl +:+ "A package (of sorts)" +:+ nl +:+
  "https://example.org/foo" +:+ nl +:+ "ament_cmake".

Section Generator.

(** [sanitize_string] and [trim_string] of [superflore.utils] and the
    constructor of [superflore.PackageMetadata] are imported by the two
    files and defined elsewhere: the generator is modelled over them. *)
Variable sanitize_string : string → string → string.
Variable trim_string : string → string.
Variable PackageMetadata_init : string → result PackageMetadata.

(** [PkgBuild.get_pkgbuild_text], up to the list [entries]: the object as
    the call leaves it (the description is overwritten first) and the
    entries, or the exception raised. *)
Definition get_pkgbuild_entries (self : PkgBuild)
    (distributor license_text : string) : PkgBuild * result (list string) :=
  let self :=
    set_description
      (sanitize_string self.(description) self.(illegal_desc_chars)) self in
  let self := set_description (trim_string self.(description)) self in
  (self,
   version_str ← attr_split "-" self.(version) ≫= (λ l, index l 0);
   release ← attr_split "-" self.(version) ≫= (λ l, index l 1);
   let rc := Py.slice_from 1 release in
   let license_str := map (λ ul, "'" +:+ ul +:+ "'") self.(upstream_license) in
   Ok [ "# Script generated with superflore";
        "# Maintainer: Sebastian Mai <sebastian.mai@ovgu.de>";
        "pkgname='ros-" +:+ Py.fmt self.(distro) +:+ "-" +:+
          Py.fmt self.(name) +:+ "'";
        "pkgdesc=" +:+ dq +:+ self.(description) +:+ dq;
        "url=" +:+ self.(homepage);
        "pkgver=" +:+ version_str;
        "arch=('any')";
        "pkgrel=" +:+ rc;
        "license=(" +:+ Py.join " " license_str +:+ ")";
        "epoch=0";
        "groups=('ros' 'ros-" +:+ Py.fmt self.(distro) +:+ "')";
        makedepends_entry self;
        depends_entry self;
        "source=(" +:+ dq +:+ "ros-" +:+ Py.fmt self.(distro) +:+ "-" +:+
          Py.fmt self.(name) +:+ "-" +:+ Py.fmt self.(version) +:+
          ".tar.gz::" +:+ Py.fmt self.(src_uri) +:+ dq +:+ ")";
        "md5sums=('SKIP')";
        build_block self;
        package_block self ]).

(** [PkgBuild.get_pkgbuild_text]: the entries joined by line feeds. *)
Definition get_pkgbuild_text (self : PkgBuild)
    (distributor license_text : string) : PkgBuild * result string :=
  let '(self, entries) := get_pkgbuild_entries self distributor license_text in
  (self, result_map (Py.join nl) entries).

(** The four insertion loops of [_gen_pkgbuild_for_package], in the
    order of the source: run, build, buildtool, test. *)
Definition insert_depends (p : provider) (pkg_pkgbuild : PkgBuild) : PkgBuild :=
  let internal d := Py.contains p.(package_names) d in
  let pkg_pkgbuild :=
    foldl (λ m rdep, add_run_depend rdep (internal rdep) m)
      pkg_pkgbuild p.(run_depends) in
  let pkg_pkgbuild :=
    foldl (λ m bdep, add_build_depend bdep (internal bdep) m)
      pkg_pkgbuild p.(build_depends) in
  let pkg_pkgbuild :=
    foldl (λ m tdep, add_build_depend tdep (internal tdep) m)
      pkg_pkgbuild p.(buildtool_depends) in
  foldl (λ m test_dep, add_test_depend test_dep (internal test_dep) m)
    pkg_pkgbuild p.(test_depends).

(** [_gen_pkgbuild_for_package]: the lines logged by [warn] and the
    recipe object, or the exception that leaves the function. *)
Definition _gen_pkgbuild_for_package (p : provider) (pkg_name : string)
    : list string * result PkgBuild :=
  let pkg_pkgbuild := PkgBuild_init in
  let pkg_pkgbuild := set_distro (Some p.(distro_name)) pkg_pkgbuild in
  let pkg_pkgbuild := set_src_uri (Some p.(tar_uri)) pkg_pkgbuild in
  let pkg_keywords := ["x86"; "amd64"; "arm"; "arm64"] in
  let pkg_pkgbuild := insert_depends p pkg_pkgbuild in
  let pkg_pkgbuild :=
    foldl (λ m key, add_keyword key false m) pkg_pkgbuild pkg_keywords in
  match p.(package_xml) with
  | Raise _ =>
      (["fetch metadata for package " +:+ pkg_name], Ok pkg_pkgbuild)
  | Ok pkg_xml =>
      ([],
       pkg ← PackageMetadata_init pkg_xml;
       let pkg_pkgbuild :=
         set_upstream_license pkg.(pkg_upstream_license) pkg_pkgbuild in
       let pkg_pkgbuild := set_description pkg.(pkg_description) pkg_pkgbuild in
       let pkg_pkgbuild := set_homepage pkg.(pkg_homepage) pkg_pkgbuild in
       let pkg_pkgbuild := set_build_type pkg.(pkg_build_type) pkg_pkgbuild in
       Ok pkg_pkgbuild)
  end.

(** [arch_pkgbuild.__init__]: the object holds the one attribute
    [pkgbuild]. *)
Definition arch_pkgbuild (p : provider) (pkg_name : string)
    (has_patches : bool) : list string * result PkgBuild :=
  let '(log, built) := _gen_pkgbuild_for_package p pkg_name in
  (log,
   pkgbuild ← built;
   let pkgbuild := set_has_patches has_patches pkgbuild in
   Ok (if Py.contains no_python3 pkg_name
       then set_python_3 false pkgbuild
       else pkgbuild)).

(** [arch_pkgbuild.pkgbuild_text]. *)
Definition pkgbuild_text (pkgbuild : PkgBuild) : PkgBuild * result string :=
  get_pkgbuild_text pkgbuild org org_license.

(** [regenerate_pkg] from the unknown-package check to the rendered text.
    What the function reads from the distribution and from the overlay's
    files before is given: [pkg_version] is [get_pkg_version(distro, pkg)],
    [pkg_patches] the patches found, [ros2] the distribution type,
    [has_patch_dir] whether the patch directory exists, and [up_to_date]
    whether [preserve_existing] holds and the recipe file exists. The
    removal of old files and the writing of the text do not touch the
    recipe object. *)
Definition regenerate_pkg (p : provider) (pkg : string)
    (pkg_version : option string) (pkg_patches : option (list string))
    (ros2 has_patch_dir up_to_date : bool) : list string * result regenerated :=
  if negb (Py.contains p.(package_names) pkg)
  then ([], Raise (RuntimeError ("Unknown package '" +:+ pkg +:+ "'")))
  else if up_to_date
  then (["pkgbuild for package '" +:+ pkg +:+ "' up to date, skipping..."],
        Ok UpToDate)
  else
    let '(log, made) := arch_pkgbuild p pkg has_patch_dir in
    match made with
    | Raise e =>
        (log ++ ["Failed to generate pkgbuild for package " +:+ pkg +:+ "!"],
         Raise e)
    | Ok current =>
        let current := set_name (Some pkg) current in
        let current := set_version pkg_version current in
        let current := set_patches pkg_patches current in
        let current := set_is_ros2 ros2 current in
        match pkgbuild_text current with
        | (current, Ok text) =>
            (log ++ ["Successfully generated pkgbuild for package '" +:+
                     pkg +:+ "'."],
             Ok (Generated current text))
        | (current, Raise UnresolvedDependency) =>
            (log ++
             ["Failed to resolve required dependencies for package " +:+
              pkg +:+ "!"] ++
             map (λ dep, " unresolved: " +:+ dq +:+ dep +:+ dq)
               (get_unresolved current),
             Ok (NotGenerated (get_unresolved current)))
        | (_, Raise KeyError) =>
            (log ++ ["Failed to parse data for package " +:+ pkg +:+ "!"],
             Raise KeyError)
        | (_, Raise e) => (log, Raise e)
        end
    end.

(** The object of [_gen_pkgbuild_for_package] once its four insertion
    loops have run. *)
Definition classified (p : provider) : PkgBuild :=
  insert_depends p
    (set_src_uri (Some p.(tar_uri))
       (set_distro (Some p.(distro_name)) PkgBuild_init)).

(** The object as a render leaves it: the two passes over the description
    change no other attribute. *)
Definition described (self : PkgBuild) : PkgBuild :=
  set_description
    (trim_string (sanitize_string self.(description) self.(illegal_desc_chars)))
    self.

(** One call on the object: the object after it. *)
Definition perform (self : PkgBuild) (c : call) : PkgBuild :=
  match c with
  | AddBuildDepend depend internal => add_build_depend depend internal self
  | AddRunDepend rdepend internal => add_run_depend rdepend internal self
  | AddTestDepend tdepend internal => add_test_depend tdepend internal self
  | AddKeyword keyword stable => add_keyword keyword stable self
  | GetInheritLine => self
  | GetPkgbuildText distributor license_text =>
      (get_pkgbuild_text self distributor license_text).1
  | GetUnresolved => self
  end.

(** ** Python's primitives *)

Lemma contains_true (l : list string) (x : string) :
  Py.contains l x = true ↔ x ∈ l.
Proof. unfold Py.contains. apply bool_decide_eq_true. Qed.

Lemma contains_false (l : list string) (x : string) :
  Py.contains l x = false ↔ x ∉ l.
Proof. unfold Py.contains. apply bool_decide_eq_false. Qed.

Lemma split_cons (sep : ascii) (s : string) :
  ∃ pieces, Py.split sep s = before_first sep s :: pieces.
Proof.
  induction s as [|c rest [pieces IH]]; simpl.
  - by exists [].
  - destruct (decide (c = sep)); [by eexists|].
    rewrite IH. by eexists.
Qed.

Lemma split_with_separator (sep : ascii) (s : string) :
  has_char sep s = true →
  Py.split sep s = before_first sep s :: Py.split sep (after_first sep s).
Proof.
  induction s as [|c rest IH]; simpl; [done|].
  destruct (decide (c = sep)) as [->|Hne].
  - by rewrite bool_decide_eq_true_2.
  - rewrite bool_decide_eq_false_2 by done. simpl. intros H.
    by rewrite (IH H).
Qed.

Lemma split_without_separator (sep : ascii) (s : string) :
  has_char sep s = false → Py.split sep s = [s].
Proof.
  induction s as [|c rest IH]; simpl; [done|].
  destruct (decide (c = sep)) as [->|Hne].
  - by rewrite bool_decide_eq_true_2.
  - rewrite bool_decide_eq_false_2 by done. simpl. intros H.
    by rewrite (IH H).
Qed.

Lemma before_first_without_separator (sep : ascii) (s : string) :
  has_char sep s = false → before_first sep s = s.
Proof.
  intros H. destruct (split_cons sep s) as [pieces Hs].
  rewrite (split_without_separator _ _ H) in Hs. congruence.
Qed.

Lemma index_split_0 (sep : ascii) (s : string) :
  index (Py.split sep s) 0 = Ok (before_first sep s).
Proof. destruct (split_cons sep s) as [pieces ->]. done. Qed.

Lemma index_split_1 (sep : ascii) (s : string) :
  has_char sep s = true →
  index (Py.split sep s) 1 = Ok (before_first sep (after_first sep s)).
Proof.
  intros H. rewrite (split_with_separator _ _ H).
  destruct (split_cons sep (after_first sep s)) as [pieces ->]. done.
Qed.

Lemma index_split_1_missing (sep : ascii) (s : string) :
  has_char sep s = false → index (Py.split sep s) 1 = Raise IndexError.
Proof. intros H. by rewrite (split_without_separator _ _ H). Qed.

Lemma replace_first_at_start (old new s : string) :
  Py.startswith old s = true →
  Py.replace_first old new s = new +:+ Py.slice_from (String.length old) s.
Proof. intros H. destruct s; cbn [Py.replace_first]; by rewrite H. Qed.

(** ** The render: version, release and failures *)

Lemma get_pkgbuild_entries_object (self : PkgBuild) (distributor license_text : string) :
  (get_pkgbuild_entries self distributor license_text).1 = described self.
Proof. done. Qed.

Lemma get_pkgbuild_text_entries (self : PkgBuild) (distributor license_text : string) :
  (get_pkgbuild_text self distributor license_text).2 =
  result_map (Py.join nl)
    (get_pkgbuild_entries self distributor license_text).2.
Proof. done. Qed.

Lemma get_pkgbuild_text_object (self : PkgBuild) (distributor license_text : string) :
  (get_pkgbuild_text self distributor license_text).1 = described self.
Proof. done. Qed.

(** With a separator in the version the render returns these entries. *)
Lemma entries_with_separator (self : PkgBuild) (v distributor license_text : string) :
  self.(version) = Some v →
  has_char "-" v = true →
  ∃ pkgname pkgdesc url license groups source,
    (get_pkgbuild_entries self distributor license_text).2 =
    Ok [ "# Script generated with superflore";
         "# Maintainer: Sebastian Mai <sebastian.mai@ovgu.de>";
         pkgname; pkgdesc; url;
         "pkgver=" +:+ before_first "-" v;
         "arch=('any')";
         "pkgrel=" +:+ Py.slice_from 1 (before_first "-" (after_first "-" v));
         license;
         "epoch=0";
         groups;
         makedepends_entry self;
         depends_entry self;
         source;
         "md5sums=('SKIP')";
         build_block self;
         package_block self ].
Proof.
  intros Hv Hsep. unfold get_pkgbuild_entries. cbn [snd version set_description].
  rewrite Hv. cbn [attr_split mbind result_bind].
  rewrite index_split_0, (index_split_1 _ _ Hsep).
  by do 6 eexists.
Qed.

(** Without a separator the second piece of the split is missing. *)
Lemma entries_without_separator (self : PkgBuild) (v distributor license_text : string) :
  self.(version) = Some v →
  has_char "-" v = false →
  (get_pkgbuild_entries self distributor license_text).2 = Raise IndexError.
Proof.
  intros Hv Hsep. unfold get_pkgbuild_entries. cbn [snd version set_description].
  rewrite Hv. cbn [attr_split mbind result_bind].
  by rewrite index_split_0, (index_split_1_missing _ _ Hsep).
Qed.

(** The render raises nothing but [AttributeError] and [IndexError]. *)
Lemma get_pkgbuild_text_raises (self : PkgBuild) (distributor license_text : string) (e : exn) :
  (get_pkgbuild_text self distributor license_text).2 = Raise e →
  e = AttributeError ∨ e = IndexError.
Proof.
  rewrite get_pkgbuild_text_entries. unfold get_pkgbuild_entries.
  cbn [snd version set_description].
  destruct (version self) as [v|]; cbn [attr_split mbind result_bind].
  - rewrite index_split_0.
    destruct (has_char "-" v) eqn:Hsep.
    + rewrite (index_split_1 _ _ Hsep). discriminate.
    + rewrite (index_split_1_missing _ _ Hsep). simpl. intros [= <-]. by right.
  - simpl. intros [= <-]. by left.
Qed.

(** C8. For every version string without a [-], the render raises
    [IndexError], the failed access to the release segment, and produces
    no text; [regenerate_pkg] catches [UnresolvedDependency] and
    [KeyError] only, so the error leaves it as raised. *)
Theorem version_without_separator_raises (v : string) :
  has_char "-" v = false →
  (∀ self distributor license_text,
     self.(version) = Some v →
     (get_pkgbuild_text self distributor license_text).2 = Raise IndexError) ∧
  (∀ p pkg pkg_patches ros2 has_patch_dir log current,
     pkg ∈ p.(package_names) →
     arch_pkgbuild p pkg has_patch_dir = (log, Ok current) →
     regenerate_pkg p pkg (Some v) pkg_patches ros2 has_patch_dir false =
     (log, Raise IndexError)).
Proof.
  intros Hsep. split.
  - intros self distributor license_text Hv.
    rewrite get_pkgbuild_text_entries.
    by rewrite (entries_without_separator _ v _ _ Hv Hsep).
  - intros p pkg pkg_patches ros2 has_patch_dir log current Hin Hmade.
    unfold regenerate_pkg.
    apply contains_true in Hin. rewrite Hin. cbn [negb].
    rewrite Hmade. unfold pkgbuild_text.
    match goal with
    | |- context [get_pkgbuild_text ?m ?d ?l] =>
        pose proof (get_pkgbuild_text_entries m d l) as Htext;
        rewrite (entries_without_separator m v d l eq_refl Hsep) in Htext;
        destruct (get_pkgbuild_text m d l) as [after outcome]
    end.
    simpl in Htext. by subst outcome.
Qed.

(** C7, as amended. For every version string with a [-], the [pkgver]
    entry of the rendered text is the substring before the first [-], and
    the [pkgrel] entry is the piece between the first [-] and the next
    one, without its first character; when the version has one [-] only,
    that piece is the whole substring after it. *)
Theorem pkgver_pkgrel_entries (self : PkgBuild) (v distributor license_text : string) :
  self.(version) = Some v →
  has_char "-" v = true →
  ∃ entries,
    (get_pkgbuild_text self distributor license_text).2 =
      Ok (Py.join nl entries) ∧
    entries !! 5 = Some ("pkgver=" +:+ before_first "-" v) ∧
    entries !! 7 =
      Some ("pkgrel=" +:+
            Py.slice_from 1 (before_first "-" (after_first "-" v))) ∧
    (has_char "-" (after_first "-" v) = false →
     entries !! 7 =
       Some ("pkgrel=" +:+ Py.slice_from 1 (after_first "-" v))).
Proof.
  intros Hv Hsep.
  destruct (entries_with_separator self v distributor license_text Hv Hsep)
    as (pkgname & pkgdesc & url & license & groups & source & Hentries).
  eexists. rewrite get_pkgbuild_text_entries, Hentries.
  split; [reflexivity|]. split; [reflexivity|]. split; [reflexivity|].
  intros Hone. cbn [lookup list_lookup].
  by rewrite (before_first_without_separator _ _ Hone).
Qed.

(** C1, as amended. For every object whose build type is none of the four
    recognized ones, [get_inherit_line] raises [UnknownBuildType] with
    that build type; [get_pkgbuild_text] does not call it and raises
    [UnknownBuildType] for no object. *)
Theorem unknown_build_type_raised_by_inherit_line (self : PkgBuild) :
  self.(build_type) ∉ recognized_build_types →
  get_inherit_line self = Raise (UnknownBuildType self.(build_type)) ∧
  ∀ distributor license_text unknown,
    (get_pkgbuild_text self distributor license_text).2 ≠
    Raise (UnknownBuildType unknown).
Proof.
  intros Hnot. split.
  - unfold get_inherit_line, Py.contains.
    unfold recognized_build_types in Hnot.
    rewrite !bool_decide_eq_false_2; [done|..];
      intros Hin; apply Hnot; revert Hin;
      rewrite !elem_of_cons, ?elem_of_nil; tauto.
  - intros distributor license_text unknown Hraise.
    by destruct (get_pkgbuild_text_raises _ _ _ _ Hraise).
Qed.

(** C5. The outcome of the render does not depend on the test
    dependencies, the keywords, the build type or the Python 3 and ROS 2
    flags: an object and the same object with any other values in these
    attributes render to the same text (or fail alike). *)
Theorem render_ignores_untracked_attributes (self : PkgBuild)
    (tdeps tdeps_external : list string) (keywords : list pkgbuild_keyword)
    (bt : string) (py3 ros2 : bool) (distributor license_text : string) :
  (get_pkgbuild_text
     (set_tdepends tdeps
        (set_tdepends_external tdeps_external
           (set_keys keywords
              (set_build_type bt
                 (set_python_3 py3 (set_is_ros2 ros2 self))))))
     distributor license_text).2 =
  (get_pkgbuild_text self distributor license_text).2.
Proof.
  rewrite !get_pkgbuild_text_entries.
  unfold get_pkgbuild_entries, makedepends_entry, depends_entry,
    build_block, package_block, ros_name.
  reflexivity.
Qed.

(** ** The render: dependency entries *)

Lemma python3_step (dep : string) :
  (if Py.startswith "python3" dep
   then Py.replace_first "python3" "python" dep
   else dep) = python3_to_python dep.
Proof.
  unfold python3_to_python.
  destruct (Py.startswith "python3" dep) eqn:Hstart; [|done].
  by rewrite (replace_first_at_start _ _ _ Hstart).
Qed.

(** The loop, met with [seen] behind the iterator and [todo] ahead of it,
    renames the entries ahead and leaves those behind. *)
Lemma python3_loop_map (seen todo : list string) :
  python3_loop (length todo) (length seen) (seen ++ todo) =
  seen ++ map python3_to_python todo.
Proof.
  revert seen. induction todo as [|dep todo IH]; intros seen; [done|].
  cbn [length python3_loop map].
  rewrite list_lookup_middle by done.
  replace (if Py.startswith "python3" dep
           then <[length seen:=Py.replace_first "python3" "python" dep]>
                  (seen ++ dep :: todo)
           else seen ++ dep :: todo)
    with ((seen ++ [python3_to_python dep]) ++ todo).
  - replace (S (length seen)) with (length (seen ++ [python3_to_python dep]))
      by (rewrite length_app; simpl; lia).
    rewrite IH. by rewrite <- app_assoc.
  - rewrite <- python3_step, <- app_assoc. simpl.
    destruct (Py.startswith "python3" dep); [|done].
    rewrite insert_app_r_alt by done.
    by rewrite Nat.sub_diag.
Qed.

Lemma rename_python3_map (dependencies : list string) :
  rename_python3 dependencies = map python3_to_python dependencies.
Proof. apply (python3_loop_map [] dependencies). Qed.

Lemma makedepends_entry_names (self : PkgBuild) :
  makedepends_entry self =
  "makedepends=(" +:+ Py.join " " (makedepends_names self) +:+ ")".
Proof. unfold makedepends_entry. by rewrite rename_python3_map. Qed.

(** A name under the [ros-] prefix is never renamed: the renaming only
    ever touches the external entries. *)
Lemma makedepends_names_external (self : PkgBuild) :
  makedepends_names self =
  map (ros_name self) self.(depends) ++
  map python3_to_python self.(depends_external).
Proof.
  unfold makedepends_names. rewrite map_app, map_map. f_equal.
Qed.

(** C9. The [makedepends] entry of the rendered text lists, joined by
    spaces, the names of [depends] under the prefix [ros-<distro>-] in
    insertion order, then the names of [depends_external] in insertion
    order, every entry that begins with [python3] beginning with [python]
    instead; so an external build dependency [python3-numpy] is listed
    as [python-numpy]. *)
Theorem makedepends_entry_rendered (self : PkgBuild) (v distributor license_text : string) :
  self.(version) = Some v →
  has_char "-" v = true →
  ∃ entries,
    (get_pkgbuild_text self distributor license_text).2 =
      Ok (Py.join nl entries) ∧
    entries !! 11 =
      Some ("makedepends=(" +:+ Py.join " " (makedepends_names self) +:+ ")") ∧
    (∀ dep, dep ∈ self.(depends_external) →
            python3_to_python dep ∈ makedepends_names self) ∧
    ("python3-numpy" ∈ self.(depends_external) →
     "python-numpy" ∈ makedepends_names self).
Proof.
  intros Hv Hsep.
  destruct (entries_with_separator self v distributor license_text Hv Hsep)
    as (pkgname & pkgdesc & url & license & groups & source & Hentries).
  eexists. rewrite get_pkgbuild_text_entries, Hentries.
  split; [reflexivity|]. split.
  { cbn [lookup list_lookup]. by rewrite makedepends_entry_names. }
  assert (∀ dep, dep ∈ self.(depends_external) →
                 python3_to_python dep ∈ makedepends_names self) as Hext.
  { intros dep Hdep. unfold makedepends_names.
    apply list_elem_of_fmap. exists dep. split; [done|].
    apply elem_of_app. by right. }
  split; [done|]. intros Hnumpy. apply (Hext _ Hnumpy).
Qed.

(** ** The insertion methods *)

(** C6. For a name already in [rdepends] or [rdepends_external],
    [add_build_depend] leaves the object as it is. For any other name it
    appends the name to [depends] when [internal] holds and to
    [depends_external] otherwise, leaves the other buckets, and does so
    again on a second call: the bucket then ends with the name twice. *)
Theorem add_build_depend_effect (d : string) (internal : bool) (self : PkgBuild) :
  (d ∈ self.(rdepends) ∨ d ∈ self.(rdepends_external) →
   add_build_depend d internal self = self) ∧
  (d ∉ self.(rdepends) → d ∉ self.(rdepends_external) →
   (internal = true →
    add_build_depend d internal self =
      set_depends (self.(depends) ++ [d]) self ∧
    (add_build_depend d internal self).(depends) = self.(depends) ++ [d] ∧
    (add_build_depend d internal self).(depends_external) =
      self.(depends_external) ∧
    (add_build_depend d internal
       (add_build_depend d internal self)).(depends) =
      self.(depends) ++ [d; d]) ∧
   (internal = false →
    add_build_depend d internal self =
      set_depends_external (self.(depends_external) ++ [d]) self ∧
    (add_build_depend d internal self).(depends_external) =
      self.(depends_external) ++ [d] ∧
    (add_build_depend d internal self).(depends) = self.(depends) ∧
    (add_build_depend d internal
       (add_build_depend d internal self)).(depends_external) =
      self.(depends_external) ++ [d; d]) ∧
   (add_build_depend d internal self).(rdepends) = self.(rdepends) ∧
   (add_build_depend d internal self).(rdepends_external) =
     self.(rdepends_external) ∧
   (add_build_depend d internal self).(tdepends) = self.(tdepends) ∧
   (add_build_depend d internal self).(tdepends_external) =
     self.(tdepends_external)).
Proof.
  split.
  - intros Hrun. unfold add_build_depend.
    destruct (Py.contains (rdepends self) d) eqn:Hint; [done|].
    destruct Hrun as [Hrun|Hrun]; [by apply contains_false in Hint|].
    apply contains_true in Hrun. by rewrite Hrun.
  - intros Hint Hext.
    apply contains_false in Hint. apply contains_false in Hext.
    unfold add_build_depend.
    destruct internal;
      repeat (rewrite ?Hint, ?Hext;
              cbn [depends depends_external rdepends rdepends_external
                     tdepends tdepends_external set_depends
                     set_depends_external]);
      rewrite <- ?app_assoc; repeat split; done.
Qed.

(** C2, as amended. For a name of [depend_only_pkgs] that is not
    internal, [add_run_depend] appends the name to [depends_external],
    the external build bucket, and leaves both run buckets. In every
    other case it appends the name to [rdepends] when [internal] holds
    and to [rdepends_external] otherwise; the name is then in exactly one
    of the two run buckets when it was not in the other one before. *)
Theorem add_run_depend_routing (d : string) (internal : bool) (self : PkgBuild) :
  (d ∈ depend_only_pkgs → internal = false →
   (add_run_depend d internal self).(depends_external) =
     self.(depends_external) ++ [d] ∧
   (add_run_depend d internal self).(rdepends) = self.(rdepends) ∧
   (add_run_depend d internal self).(rdepends_external) =
     self.(rdepends_external)) ∧
  (internal = true →
   (add_run_depend d internal self).(rdepends) = self.(rdepends) ++ [d] ∧
   (add_run_depend d internal self).(rdepends_external) =
     self.(rdepends_external) ∧
   (add_run_depend d internal self).(depends_external) =
     self.(depends_external) ∧
   (d ∉ self.(rdepends_external) →
    d ∈ (add_run_depend d internal self).(rdepends) ∧
    d ∉ (add_run_depend d internal self).(rdepends_external))) ∧
  (d ∉ depend_only_pkgs → internal = false →
   (add_run_depend d internal self).(rdepends_external) =
     self.(rdepends_external) ++ [d] ∧
   (add_run_depend d internal self).(rdepends) = self.(rdepends) ∧
   (add_run_depend d internal self).(depends_external) =
     self.(depends_external) ∧
   (d ∉ self.(rdepends) →
    d ∈ (add_run_depend d internal self).(rdepends_external) ∧
    d ∉ (add_run_depend d internal self).(rdepends))).
Proof.
  unfold add_run_depend. split; [|split].
  - intros Hlisted ->. apply contains_true in Hlisted. by rewrite Hlisted.
  - intros ->. rewrite andb_false_r.
    cbn [rdepends rdepends_external depends_external set_rdepends].
    do 3 (split; [done|]).
    intros Hother. split; [|done].
    apply elem_of_app. right. by apply list_elem_of_singleton.
  - intros Hnot ->. apply contains_false in Hnot. rewrite Hnot.
    cbn [andb rdepends rdepends_external depends_external
           set_rdepends_external].
    do 3 (split; [done|]).
    intros Hother. split; [|done].
    apply elem_of_app. right. by apply list_elem_of_singleton.
Qed.

(** ** What the insertions leave alone *)

Lemma foldl_preserves {A B : Type} (f : A → B → A) (P : A → Prop)
    (l : list B) (a : A) :
  (∀ a b, P a → P (f a b)) → P a → P (foldl f a l).
Proof.
  intros Hstep. revert a.
  induction l as [|b l IH]; intros a Ha; [done|].
  simpl. apply IH. by apply Hstep.
Qed.

Lemma add_build_depend_attributes (d : string) (internal : bool) (self : PkgBuild) :
  attributes_besides_buckets (add_build_depend d internal self) =
  attributes_besides_buckets self.
Proof. unfold add_build_depend. by repeat case_match. Qed.

Lemma add_run_depend_attributes (d : string) (internal : bool) (self : PkgBuild) :
  attributes_besides_buckets (add_run_depend d internal self) =
  attributes_besides_buckets self.
Proof. unfold add_run_depend. by repeat case_match. Qed.

Lemma add_test_depend_attributes (d : string) (internal : bool) (self : PkgBuild) :
  attributes_besides_buckets (add_test_depend d internal self) =
  attributes_besides_buckets self.
Proof. unfold add_test_depend. by repeat case_match. Qed.

Lemma insert_depends_attributes (p : provider) (self : PkgBuild) :
  attributes_besides_buckets (insert_depends p self) =
  attributes_besides_buckets self.
Proof.
  unfold insert_depends.
  repeat (apply (foldl_preserves _
            (λ m, attributes_besides_buckets m =
                  attributes_besides_buckets self));
          [intros m d <-;
           first [apply add_test_depend_attributes
                 |apply add_build_depend_attributes
                 |apply add_run_depend_attributes]|]).
  done.
Qed.

Lemma attributes_unresolved (a b : PkgBuild) :
  attributes_besides_buckets a = attributes_besides_buckets b →
  a.(unresolved_deps) = b.(unresolved_deps).
Proof. intros [= ]. done. Qed.

Lemma perform_unresolved (self : PkgBuild) (c : call) :
  (perform self c).(unresolved_deps) = self.(unresolved_deps).
Proof.
  destruct c; cbn [perform]; try done.
  - apply attributes_unresolved, add_build_depend_attributes.
  - apply attributes_unresolved, add_run_depend_attributes.
  - apply attributes_unresolved, add_test_depend_attributes.
Qed.

Lemma arch_pkgbuild_unresolved (p : provider) (pkg_name : string)
    (has_patch_dir : bool) (pkgbuild : PkgBuild) :
  (arch_pkgbuild p pkg_name has_patch_dir).2 = Ok pkgbuild →
  pkgbuild.(unresolved_deps) = [].
Proof.
  pose proof (attributes_unresolved _ _
    (insert_depends_attributes p
       (set_src_uri (Some p.(tar_uri))
          (set_distro (Some p.(distro_name)) PkgBuild_init)))) as Hsame.
  unfold arch_pkgbuild, _gen_pkgbuild_for_package.
  destruct (package_xml p) as [pkg_xml|e]; cbn [snd mbind result_bind].
  - destruct (PackageMetadata_init pkg_xml) as [pkg|e];
      cbn [mbind result_bind]; [|done].
    intros [= <-]. by case_match.
  - intros [= <-]. by case_match.
Qed.

(** C4. The list of unresolved dependencies stays empty: it is empty on a
    new object and after any calls on it, [get_pkgbuild_text] and
    [get_inherit_line] never raise [UnresolvedDependency], the object of
    [arch_pkgbuild] holds none, and [regenerate_pkg] never takes the
    branch that reports unresolved names. *)
Theorem unresolved_deps_always_empty :
  (∀ calls, get_unresolved (foldl perform PkgBuild_init calls) = []) ∧
  (∀ self distributor license_text,
     (get_pkgbuild_text self distributor license_text).2 ≠
       Raise UnresolvedDependency ∧
     get_inherit_line self ≠ Raise UnresolvedDependency) ∧
  (∀ p pkg_name has_patch_dir,
     match (arch_pkgbuild p pkg_name has_patch_dir).2 with
     | Ok pkgbuild => get_unresolved pkgbuild = []
     | Raise _ => True
     end) ∧
  (∀ p pkg pkg_version pkg_patches ros2 has_patch_dir up_to_date,
     match (regenerate_pkg p pkg pkg_version pkg_patches ros2
              has_patch_dir up_to_date).2 with
     | Ok UpToDate => True
     | Ok (Generated current _) => get_unresolved current = []
     | Ok (NotGenerated _) => False
     | Raise _ => True
     end).
Proof.
  split; [|split; [|split]].
  - intros calls. unfold get_unresolved.
    apply (foldl_preserves perform (λ m, m.(unresolved_deps) = [])); [|done].
    intros m c Hm. by rewrite perform_unresolved.
  - intros self distributor license_text. split.
    + intros Hraise.
      by destruct (get_pkgbuild_text_raises _ _ _ _ Hraise).
    + unfold get_inherit_line. by repeat case_match.
  - intros p pkg_name has_patch_dir.
    destruct (arch_pkgbuild p pkg_name has_patch_dir).2 as [pkgbuild|e] eqn:Hmade;
      [|done].
    by apply arch_pkgbuild_unresolved in Hmade.
  - intros p pkg pkg_version pkg_patches ros2 has_patch_dir up_to_date.
    unfold regenerate_pkg.
    destruct (negb (Py.contains (package_names p) pkg)); [done|].
    destruct up_to_date; [done|].
    pose proof (arch_pkgbuild_unresolved p pkg has_patch_dir) as Hmade.
    destruct (arch_pkgbuild p pkg has_patch_dir) as [log [current|e]];
      [|done].
    specialize (Hmade current eq_refl). unfold pkgbuild_text.
    match goal with
    | |- context [get_pkgbuild_text ?m ?d ?l] =>
        pose proof (get_pkgbuild_text_object m d l) as Hobject;
        pose proof (get_pkgbuild_text_raises m d l) as Hraises;
        destruct (get_pkgbuild_text m d l) as [after [text|e]]
    end.
    + cbn [fst snd] in *. subst after. done.
    + destruct (Hraises e eq_refl) as [-> | ->]; done.
Qed.

(** ** The builder *)

Lemma attributes_descriptive (a b : PkgBuild) :
  attributes_besides_buckets a = attributes_besides_buckets b →
  a.(upstream_license) = b.(upstream_license) ∧
  a.(description) = b.(description) ∧
  a.(homepage) = b.(homepage) ∧
  a.(build_type) = b.(build_type).
Proof. intros [= ]. done. Qed.

(** C10. When the fetch of the package metadata fails, with whatever
    exception, the builder logs one warning and returns the object with
    the buckets as the insertion loops left them and with license,
    description, homepage and build type at the values of a new object;
    when the fetch succeeds, it logs nothing and returns the object with
    the same buckets and these four attributes taken from the metadata. *)
Theorem metadata_fetch_outcome (p : provider) (pkg_name : string) :
  (∀ e, p.(package_xml) = Raise e →
     ∃ built,
       _gen_pkgbuild_for_package p pkg_name =
         (["fetch metadata for package " +:+ pkg_name], Ok built) ∧
       all_buckets built = all_buckets (classified p) ∧
       built.(upstream_license) = ["LGPL-2"] ∧
       built.(description) = "" ∧
       built.(homepage) = "https://wiki.ros.org" ∧
       built.(build_type) = "catkin") ∧
  (∀ pkg_xml pkg,
     p.(package_xml) = Ok pkg_xml →
     PackageMetadata_init pkg_xml = Ok pkg →
     ∃ built,
       _gen_pkgbuild_for_package p pkg_name = ([], Ok built) ∧
       all_buckets built = all_buckets (classified p) ∧
       built.(upstream_license) = pkg.(pkg_upstream_license) ∧
       built.(description) = pkg.(pkg_description) ∧
       built.(homepage) = pkg.(pkg_homepage) ∧
       built.(build_type) = pkg.(pkg_build_type)).
Proof.
  split.
  - intros e Hfetch. unfold _gen_pkgbuild_for_package. rewrite Hfetch.
    eexists. split; [reflexivity|]. split; [reflexivity|].
    destruct (attributes_descriptive _ _
      (insert_depends_attributes p
         (set_src_uri (Some p.(tar_uri))
            (set_distro (Some p.(distro_name)) PkgBuild_init))))
      as (Hlicense & Hdescription & Hhomepage & Hbuild).
    cbn [foldl add_keyword set_keys upstream_license description homepage
           build_type].
    by rewrite Hlicense, Hdescription, Hhomepage, Hbuild.
  - intros pkg_xml pkg Hfetch Hparse. unfold _gen_pkgbuild_for_package.
    rewrite Hfetch, Hparse. eexists. split; [reflexivity|]. done.
Qed.

(** ** Exclusivity of the buckets in the builder *)

Lemma add_run_depend_classified (names : list string) (d : string) (self : PkgBuild) :
  classified_by names self →
  classified_by names (add_run_depend d (Py.contains names d) self).
Proof.
  intros (Hb & Hbe & Hr & Hre & Ht & Hte). unfold add_run_depend.
  destruct (Py.contains names d) eqn:Hd.
  - apply contains_true in Hd. rewrite andb_false_r.
    repeat split; try done.
    cbn [rdepends set_rdepends]. intros d' [?| ->%list_elem_of_singleton]%elem_of_app; auto.
  - apply contains_false in Hd. rewrite andb_true_r.
    destruct (Py.contains depend_only_pkgs d); repeat split; try done.
    + cbn [depends_external set_depends_external].
      intros d' [?| ->%list_elem_of_singleton]%elem_of_app; auto.
    + cbn [rdepends_external set_rdepends_external].
      intros d' [?| ->%list_elem_of_singleton]%elem_of_app; auto.
Qed.

Lemma add_build_depend_classified (names : list string) (d : string) (self : PkgBuild) :
  classified_by names self →
  classified_by names (add_build_depend d (Py.contains names d) self).
Proof.
  intros (Hb & Hbe & Hr & Hre & Ht & Hte). unfold add_build_depend.
  destruct (Py.contains (rdepends self) d); [done|].
  destruct (Py.contains (rdepends_external self) d); [done|].
  destruct (Py.contains names d) eqn:Hd.
  - apply contains_true in Hd. repeat split; try done.
    cbn [depends set_depends].
    intros d' [?| ->%list_elem_of_singleton]%elem_of_app; auto.
  - apply contains_false in Hd. repeat split; try done.
    cbn [depends_external set_depends_external].
    intros d' [?| ->%list_elem_of_singleton]%elem_of_app; auto.
Qed.

Lemma add_test_depend_classified (names : list string) (d : string) (self : PkgBuild) :
  classified_by names self →
  classified_by names (add_test_depend d (Py.contains names d) self).
Proof.
  intros (Hb & Hbe & Hr & Hre & Ht & Hte). unfold add_test_depend.
  destruct (Py.contains names d) eqn:Hd.
  - apply contains_true in Hd. repeat split; try done.
    cbn [tdepends set_tdepends].
    intros d' [?| ->%list_elem_of_singleton]%elem_of_app; auto.
  - apply contains_false in Hd. repeat split; try done.
    cbn [tdepends_external set_tdepends_external].
    intros d' [?| ->%list_elem_of_singleton]%elem_of_app; auto.
Qed.

Lemma add_run_depend_run_phase (d : string) (internal : bool) (self : PkgBuild) :
  run_phase self → run_phase (add_run_depend d internal self).
Proof.
  intros (Hnone & Hbe & Hre). unfold add_run_depend.
  destruct (Py.contains depend_only_pkgs d) eqn:Hd.
  - apply contains_true in Hd.
    destruct internal; cbn [andb negb]; repeat split; try done.
    cbn [depends_external set_depends_external].
    intros d' [?| ->%list_elem_of_singleton]%elem_of_app; auto.
  - apply contains_false in Hd. cbn [andb].
    destruct internal; repeat split; try done.
    cbn [rdepends_external set_rdepends_external].
    intros d' [?| ->%list_elem_of_singleton]%elem_of_app; auto.
Qed.

Lemma add_run_depend_tests (d : string) (internal : bool) (self : PkgBuild) :
  (add_run_depend d internal self).(tdepends) = self.(tdepends) ∧
  (add_run_depend d internal self).(tdepends_external) =
    self.(tdepends_external).
Proof. unfold add_run_depend. by repeat case_match. Qed.

(** After the run phase the build buckets hold names of
    [depend_only_pkgs] that are no package of the distribution, and no
    run bucket holds such a name. *)
Lemma run_phase_apart (names : list string) (self : PkgBuild) :
  classified_by names self → run_phase self → build_apart_from_run self.
Proof.
  intros (Hb & Hbe & Hr & Hre & Ht & Hte) (Hnone & Hlisted & Hunlisted) d.
  rewrite Hnone. intros [Hd|Hd]; [by apply elem_of_nil in Hd|].
  split; intros Hrun.
  - by apply (Hbe d Hd), Hr.
  - by apply (Hunlisted d Hrun), Hlisted.
Qed.

Lemma add_build_depend_apart (d : string) (internal : bool) (self : PkgBuild) :
  build_apart_from_run self →
  build_apart_from_run (add_build_depend d internal self).
Proof.
  intros Hapart. unfold add_build_depend.
  destruct (Py.contains (rdepends self) d) eqn:Hint; [done|].
  destruct (Py.contains (rdepends_external self) d) eqn:Hext; [done|].
  apply contains_false in Hint. apply contains_false in Hext.
  destruct internal; intros d';
    cbn [depends depends_external rdepends rdepends_external set_depends
           set_depends_external];
    rewrite ?elem_of_app, ?list_elem_of_singleton.
  - intros [[Hd| ->]|Hd]; [apply Hapart; by left|done|apply Hapart; by right].
  - intros [Hd|[Hd| ->]]; [apply Hapart; by left|apply Hapart; by right|done].
Qed.

Lemma add_test_depend_apart (d : string) (internal : bool) (self : PkgBuild) :
  build_apart_from_run self →
  build_apart_from_run (add_test_depend d internal self).
Proof. intros Hapart. unfold add_test_depend. by case_match. Qed.

(** Buckets of one kind and apart from each other hold a name at most
    once among the build and run buckets and at most once among the test
    buckets. *)
Lemma classified_apart_holders (names : list string) (self : PkgBuild) (d : string) :
  classified_by names self →
  build_apart_from_run self →
  holders d (build_run_buckets self) ≤ 1 ∧
  holders d (test_buckets self) ≤ 1.
Proof.
  intros (Hb & Hbe & Hr & Hre & Ht & Hte) Hapart.
  specialize (Hb d). specialize (Hbe d). specialize (Hr d).
  specialize (Hre d). specialize (Ht d). specialize (Hte d).
  specialize (Hapart d).
  unfold holders, build_run_buckets, test_buckets.
  rewrite !filter_cons, !filter_nil.
  split; repeat case_decide; simpl; try lia; exfalso;
    match goal with
    | Hi : d ∈ depends self, He : d ∈ depends_external self |- _ =>
        exact (Hbe He (Hb Hi))
    | Hi : d ∈ rdepends self, He : d ∈ rdepends_external self |- _ =>
        exact (Hre He (Hr Hi))
    | Hi : d ∈ tdepends self, He : d ∈ tdepends_external self |- _ =>
        exact (Hte He (Ht Hi))
    | Hi : d ∈ depends self, Hrun : d ∈ rdepends self |- _ =>
        exact (proj1 (Hapart (or_introl Hi)) Hrun)
    | Hi : d ∈ depends self, Hrun : d ∈ rdepends_external self |- _ =>
        exact (proj2 (Hapart (or_introl Hi)) Hrun)
    | He : d ∈ depends_external self, Hrun : d ∈ rdepends self |- _ =>
        exact (proj1 (Hapart (or_intror He)) Hrun)
    | He : d ∈ depends_external self, Hrun : d ∈ rdepends_external self |- _ =>
        exact (proj2 (Hapart (or_intror He)) Hrun)
    end.
Qed.

(** C3, as amended. For the calls the builder makes on an object whose
    buckets are empty (the run dependencies, then the build and buildtool
    dependencies, then the test dependencies, a name being internal when
    it is a package of the distribution), every name is held by at most
    one of the four build and run buckets and by at most one of the two
    test buckets. *)
Theorem insert_depends_exclusive (p : provider) (self : PkgBuild) (d : string) :
  all_buckets self = [[]; []; []; []; []; []] →
  holders d (build_run_buckets (insert_depends p self)) ≤ 1 ∧
  holders d (test_buckets (insert_depends p self)) ≤ 1.
Proof.
  intros [= Hb Hbe Hr Hre Ht Hte].
  apply (classified_apart_holders p.(package_names)); unfold insert_depends.
  - repeat (apply (foldl_preserves _ (classified_by p.(package_names)));
            [intros m x Hm;
             first [by apply add_test_depend_classified
                   |by apply add_build_depend_classified
                   |by apply add_run_depend_classified]|]).
    unfold classified_by. rewrite Hb, Hbe, Hr, Hre, Ht, Hte.
    repeat split; intros d' Hd'; by apply elem_of_nil in Hd'.
  - apply (foldl_preserves _ build_apart_from_run);
      [intros m x Hm; by apply add_test_depend_apart|].
    do 2 (apply (foldl_preserves _ build_apart_from_run);
          [intros m x Hm; by apply add_build_depend_apart|]).
    apply (run_phase_apart p.(package_names)).
    + apply (foldl_preserves _ (classified_by p.(package_names)));
        [intros m x Hm; by apply add_run_depend_classified|].
      unfold classified_by. rewrite Hb, Hbe, Hr, Hre, Ht, Hte.
      repeat split; intros d' Hd'; by apply elem_of_nil in Hd'.
    + apply (foldl_preserves _ run_phase);
        [intros m x Hm; by apply add_run_depend_run_phase|].
      unfold run_phase. rewrite Hb, Hbe, Hre.
      repeat split; intros d' Hd'; by apply elem_of_nil in Hd'.
Qed.

(** ** Further properties: the small methods *)

(** X1. [get_inherit_line] returns a line exactly for the four recognized
    build types; [catkin] and [cmake] share theirs. *)
Theorem get_inherit_line_recognized (self : PkgBuild) :
  ((∃ line, get_inherit_line self = Ok line) ↔
   self.(build_type) ∈ recognized_build_types) ∧
  (self.(build_type) ∈ ["catkin"; "cmake"] →
   get_inherit_line self = Ok ("inherit ros-cmake" +:+ nl +:+ nl)).
Proof.
  unfold get_inherit_line, Py.contains, recognized_build_types.
  split; [split|].
  - intros [line Hline]. revert Hline.
    case_bool_decide as Hcmake.
    { intros _.
      apply elem_of_cons in Hcmake as [->|Hcmake]; [compute_done|].
      apply elem_of_cons in Hcmake as [->|Hcmake]; [compute_done|].
      by apply elem_of_nil in Hcmake. }
    case_bool_decide as Hpython; [intros _; rewrite Hpython; compute_done|].
    case_bool_decide as Hament; [intros _; rewrite Hament; compute_done|].
    discriminate.
  - intros Hin.
    case_bool_decide as Hcmake; [by eexists|].
    case_bool_decide as Hpython; [by eexists|].
    case_bool_decide as Hament; [by eexists|].
    exfalso.
    apply elem_of_cons in Hin as [Hin|Hin];
      [apply Hcmake; rewrite Hin; compute_done|].
    apply elem_of_cons in Hin as [Hin|Hin];
      [apply Hcmake; rewrite Hin; compute_done|].
    apply elem_of_cons in Hin as [Hin|Hin]; [done|].
    apply elem_of_cons in Hin as [Hin|Hin]; [done|].
    by apply elem_of_nil in Hin.
  - intros Hin. by rewrite bool_decide_eq_true_2.
Qed.

(** X2. [get_python_compat] raises [IndexError] exactly on the empty list
    of versions; one version is printed bare, several between braces and
    separated by commas. *)
Theorem get_python_compat_outcome (python_versions : list string) :
  (get_python_compat python_versions = Raise IndexError ↔
   python_versions = []) ∧
  (∀ v, python_versions = [v] →
        get_python_compat python_versions =
        Ok ("PYTHON_COMPAT=( python" +:+ v +:+ " )" +:+ nl +:+ nl)) ∧
  (2 ≤ length python_versions →
   get_python_compat python_versions =
   Ok ("PYTHON_COMPAT=( python" +:+
       ("{" +:+ Py.join "," python_versions +:+ "}") +:+ " )" +:+ nl +:+ nl)).
Proof.
  unfold get_python_compat.
  destruct python_versions as [|v [|w rest]]; cbn [length Nat.ltb Nat.leb].
  - repeat split; try done. simpl. lia.
  - repeat split; try done.
    + intros v' [= ->]. done.
    + simpl. lia.
  - repeat split; try done.
Qed.

(** X3. [pkgbuild_keyword.__eq__] compares what the keywords print: an
    unstable keyword equals the stable one whose architecture is the same
    name after a tilde, and keywords of the same stability are equal
    exactly when their architectures are. *)
Theorem keyword_eq_by_text :
  (∀ a, keyword_eq (mkKeyword a false) (mkKeyword ("~" +:+ a) true) = true) ∧
  (∀ a b s, keyword_eq (mkKeyword a s) (mkKeyword b s) = true ↔ a = b).
Proof.
  unfold keyword_eq, to_string. split.
  - intros a. by apply bool_decide_eq_true.
  - intros a b s. rewrite bool_decide_eq_true. destruct s; cbn [stable arch].
    + done.
    + split; [apply (inj (String.append "~"))|by intros ->].
Qed.

(** ** Further properties: the previous version of [regenerate_pkg] *)

Lemma has_char_app (c : ascii) (a b : string) :
  has_char c (a +:+ b) = has_char c a || has_char c b.
Proof.
  induction a as [|x a IH]; [done|].
  change (String x a +:+ b) with (String x (a +:+ b)).
  cbn [has_char]. rewrite IH. by rewrite orb_assoc.
Qed.

Lemma all_in_spec (chars s : string) :
  all_in chars s = true ↔
  ∀ c, has_char c s = true → has_char c chars = true.
Proof.
  induction s as [|x s IH]; cbn [all_in has_char].
  - split; [discriminate|done].
  - rewrite andb_true_iff, IH. split.
    + intros [Hx Hs] c [Hc|Hc]%orb_true_iff; [|by apply Hs].
      apply bool_decide_eq_true in Hc. by subst c.
    + intros Hall. split.
      * apply Hall. by rewrite bool_decide_eq_true_2.
      * intros c Hc. apply Hall. rewrite Hc. apply orb_true_r.
Qed.

Lemma all_in_app (chars a b : string) :
  all_in chars (a +:+ b) = all_in chars a && all_in chars b.
Proof.
  induction a as [|x a IH]; [done|].
  change (String x a +:+ b) with (String x (a +:+ b)).
  cbn [all_in]. rewrite IH. by rewrite andb_assoc.
Qed.

Lemma lstrip_app_all_in (chars pre s : string) :
  all_in chars pre = true → lstrip chars (pre +:+ s) = lstrip chars s.
Proof.
  induction pre as [|x pre IH]; [done|].
  change (String x pre +:+ s) with (String x (pre +:+ s)).
  cbn [all_in lstrip]. intros [-> Hpre]%andb_true_iff. by apply IH.
Qed.

(** What [lstrip] leaves is an end of the string, after characters of the
    set only. *)
Lemma lstrip_suffix (chars s : string) :
  ∃ pre, s = pre +:+ lstrip chars s ∧ all_in chars pre = true.
Proof.
  induction s as [|x s (pre & Hs & Hpre)]; [by exists EmptyString|].
  cbn [lstrip]. destruct (has_char x chars) eqn:Hx.
  - exists (String x pre). split.
    + change (String x pre +:+ lstrip chars s)
        with (String x (pre +:+ lstrip chars s)).
      by rewrite <- Hs.
    + cbn [all_in]. by rewrite Hx, Hpre.
  - by exists EmptyString.
Qed.

Lemma lstrip_head (chars s : string) (c : ascii) (rest : string) :
  lstrip chars s = String c rest → has_char c chars = false.
Proof.
  induction s as [|x s IH]; cbn [lstrip]; [discriminate|].
  destruct (has_char x chars) eqn:Hx; [done|].
  by intros [= <- _].
Qed.

Lemma rstrip_all_in (chars s : string) :
  all_in chars s = true → rstrip chars s = EmptyString.
Proof.
  induction s as [|x s IH]; [done|].
  cbn [all_in rstrip]. intros [Hx Hs]%andb_true_iff.
  by rewrite (IH Hs), Hx.
Qed.

Lemma rstrip_app_all_in (chars s t : string) :
  all_in chars t = true → rstrip chars (s +:+ t) = rstrip chars s.
Proof.
  intros Ht. induction s as [|x s IH]; [by apply rstrip_all_in|].
  change (String x s +:+ t) with (String x (s +:+ t)).
  cbn [rstrip]. by rewrite IH.
Qed.

Lemma rstrip_keeps (chars s : string) (l : ascii) :
  last_char s = Some l → has_char l chars = false → rstrip chars s = s.
Proof.
  intros Hlast Hl. induction s as [|x s IH]; [done|].
  cbn [rstrip]. destruct s as [|y s].
  - injection Hlast as ->. cbn [rstrip]. by rewrite Hl.
  - rewrite (IH Hlast). done.
Qed.

Lemma rstrip_head (chars s : string) (c : ascii) (rest : string) :
  rstrip chars s = String c rest → ∃ rest', s = String c rest'.
Proof.
  destruct s as [|x s]; cbn [rstrip]; [discriminate|].
  destruct (rstrip chars s); [destruct (has_char x chars)|];
    intros [= <- _]; by eexists.
Qed.

Lemma rstrip_last (chars s : string) (l : ascii) :
  last_char (rstrip chars s) = Some l → has_char l chars = false.
Proof.
  induction s as [|x s IH]; cbn [rstrip]; [discriminate|].
  destruct (rstrip chars s) as [|y kept].
  - destruct (has_char x chars) eqn:Hx; [discriminate|].
    by intros [= <-].
  - intros Hlast. by apply IH.
Qed.

Lemma append_assoc (a b c : string) : (a +:+ b) +:+ c = a +:+ (b +:+ c).
Proof.
  induction a as [|x a IH]; [done|].
  change ((String x (a +:+ b)) +:+ c = String x (a +:+ (b +:+ c))).
  change (String x ((a +:+ b) +:+ c) = String x (a +:+ (b +:+ c))).
  by rewrite IH.
Qed.

Lemma recipe_name_split (repo_dir distro pkg : string) :
  pkgbuild_name repo_dir distro pkg =
  recipe_prefix repo_dir distro pkg +:+ pkg +:+ ".pkgbuild".
Proof.
  unfold pkgbuild_name, recipe_prefix.
  by rewrite !append_assoc.
Qed.

(** X4. For the recipe file that [regenerate_pkg] names after the package,
    [previous_version] is the empty string: every character of the
    package name occurs in the prefix, so [lstrip] removes the name, and
    [rstrip] removes what is left of the extension. *)
Theorem previous_version_of_recipe_name (repo_dir distro pkg : string) :
  previous_version (recipe_prefix repo_dir distro pkg)
    (pkgbuild_name repo_dir distro pkg) = EmptyString.
Proof.
  unfold previous_version. rewrite recipe_name_split.
  rewrite lstrip_app_all_in
    by (apply all_in_spec; intros c Hc; exact Hc).
  rewrite lstrip_app_all_in.
  - destruct (lstrip_suffix (recipe_prefix repo_dir distro pkg) ".pkgbuild")
      as (pre & Hsplit & _).
    apply rstrip_all_in, all_in_spec. intros c Hc.
    rewrite Hsplit, has_char_app, Hc. apply orb_true_r.
  - apply all_in_spec. intros c Hc. unfold recipe_prefix.
    rewrite !has_char_app, Hc. by rewrite !orb_true_r.
Qed.

(** X5. For a file named by the prefix, a stem and [.pkgbuild],
    [previous_version] is the stem when the stem begins with a character
    that does not occur in the prefix and ends with one that does not
    occur in [.pkgbuild]. *)
Theorem previous_version_of_stem (prefix stem rest : string) (c l : ascii) :
  stem = String c rest →
  has_char c prefix = false →
  last_char stem = Some l →
  has_char l ".pkgbuild" = false →
  previous_version prefix (prefix +:+ stem +:+ ".pkgbuild") = stem.
Proof.
  intros Hstem Hc Hlast Hl. unfold previous_version.
  rewrite lstrip_app_all_in
    by (apply all_in_spec; intros x Hx; exact Hx).
  assert (lstrip prefix (stem +:+ ".pkgbuild") = stem +:+ ".pkgbuild") as ->.
  { subst stem.
    change (String c rest +:+ ".pkgbuild")
      with (String c (rest +:+ ".pkgbuild")).
    cbn [lstrip]. by rewrite Hc. }
  rewrite rstrip_app_all_in by done.
  by apply (rstrip_keeps _ _ l).
Qed.

(** X6. Whatever the file name, [previous_version] neither begins with a
    character of the prefix nor ends with a character of [.pkgbuild]: a
    version that ends with one of these characters is never returned. *)
Theorem previous_version_edges (prefix existing0 : string) :
  (∀ c rest, previous_version prefix existing0 = String c rest →
             has_char c prefix = false) ∧
  (∀ l, last_char (previous_version prefix existing0) = Some l →
        has_char l ".pkgbuild" = false).
Proof.
  unfold previous_version. split.
  - intros c rest Hstripped.
    destruct (rstrip_head _ _ _ _ Hstripped) as [rest' Hleft].
    by apply lstrip_head in Hleft.
  - intros l. apply rstrip_last.
Qed.

(** ** Further properties: the render *)

Lemma depends_entry_names (self : PkgBuild) :
  depends_entry self =
  "depends=(" +:+ Py.join " " (depends_names self) +:+ ")".
Proof. unfold depends_entry. by rewrite rename_python3_map. Qed.

(** X7. The [depends] entry of the rendered text lists, joined by spaces,
    the names of [rdepends] under the prefix [ros-<distro>-] and then the
    names of [rdepends_external], both in insertion order, an entry that
    begins with [python3] beginning with [python] instead; only external
    names are ever renamed. *)
Theorem depends_entry_rendered (self : PkgBuild) (v distributor license_text : string) :
  self.(version) = Some v →
  has_char "-" v = true →
  ∃ entries,
    (get_pkgbuild_text self distributor license_text).2 =
      Ok (Py.join nl entries) ∧
    entries !! 12 =
      Some ("depends=(" +:+ Py.join " " (depends_names self) +:+ ")") ∧
    depends_names self =
      map (ros_name self) self.(rdepends) ++
      map python3_to_python self.(rdepends_external).
Proof.
  intros Hv Hsep.
  destruct (entries_with_separator self v distributor license_text Hv Hsep)
    as (pkgname & pkgdesc & url & license & groups & source & Hentries).
  eexists. rewrite get_pkgbuild_text_entries, Hentries.
  split; [reflexivity|]. split.
  - cbn [lookup list_lookup]. by rewrite depends_entry_names.
  - unfold depends_names. rewrite map_app, map_map. f_equal.
Qed.

Lemma startswith_app (p s : string) : Py.startswith p (p +:+ s) = true.
Proof.
  unfold Py.startswith. induction p as [|x p IH]; [by destruct s|].
  change (String x p +:+ s) with (String x (p +:+ s)).
  cbn [String.prefix]. by destruct (ascii_dec x x).
Qed.

(** X8. A render that returns a text returns seventeen entries joined by
    line feeds, and each entry begins with the key of its place, whatever
    the object holds: the order of the fields is fixed. *)
Theorem render_entries_layout (self : PkgBuild) (v distributor license_text : string) :
  self.(version) = Some v →
  has_char "-" v = true →
  ∃ entries,
    (get_pkgbuild_text self distributor license_text).2 =
      Ok (Py.join nl entries) ∧
    length entries = 17 ∧
    Forall2 (λ key entry, Py.startswith key entry = true) entry_keys entries.
Proof.
  intros Hv Hsep. rewrite get_pkgbuild_text_entries.
  unfold get_pkgbuild_entries. cbn [snd version set_description].
  rewrite Hv. cbn [attr_split mbind result_bind].
  rewrite index_split_0, (index_split_1 _ _ Hsep).
  eexists. split; [reflexivity|]. split; [reflexivity|].
  unfold entry_keys, makedepends_entry, depends_entry, build_block,
    package_block.
  repeat (constructor; [first [reflexivity|apply startswith_app]|]).
  constructor.
Qed.

(** X9. The render returns a text exactly when the version is a string
    with a [-]; on an object whose version is still [None], as
    [__init__] and the builder leave it, it raises [AttributeError]. *)
Theorem render_outcome_by_version (self : PkgBuild) (distributor license_text : string) :
  (self.(version) = None →
   (get_pkgbuild_text self distributor license_text).2 =
   Raise AttributeError) ∧
  ((∃ text, (get_pkgbuild_text self distributor license_text).2 = Ok text) ↔
   ∃ v, self.(version) = Some v ∧ has_char "-" v = true).
Proof.
  split.
  - intros Hnone. rewrite get_pkgbuild_text_entries.
    unfold get_pkgbuild_entries. cbn [snd version set_description].
    by rewrite Hnone.
  - split.
    + intros [text Htext]. destruct (version self) as [v|] eqn:Hv.
      * exists v. split; [done|].
        destruct (has_char "-" v) eqn:Hsep; [done|].
        rewrite get_pkgbuild_text_entries in Htext.
        by rewrite (entries_without_separator _ v _ _ Hv Hsep) in Htext.
      * rewrite get_pkgbuild_text_entries in Htext.
        unfold get_pkgbuild_entries in Htext.
        cbn [snd version set_description] in Htext.
        by rewrite Hv in Htext.
    + intros (v & Hv & Hsep).
      destruct (entries_with_separator self v distributor license_text Hv
                  Hsep)
        as (pkgname & pkgdesc & url & license & groups & source & Hentries).
      eexists. by rewrite get_pkgbuild_text_entries, Hentries.
Qed.

(** X10. A render overwrites the description of the object by the
    sanitized and trimmed one and leaves every other attribute, also when
    it raises; and a second render of that object repeats the first,
    object and outcome, when sanitizing and trimming the new description
    leaves it as it is. *)
Theorem render_twice (self : PkgBuild) (distributor license_text : string) :
  (get_pkgbuild_text self distributor license_text).1 =
    set_description
      (trim_string
         (sanitize_string self.(description) self.(illegal_desc_chars)))
      self ∧
  (trim_string
     (sanitize_string
        (get_pkgbuild_text self distributor license_text).1.(description)
        self.(illegal_desc_chars)) =
   (get_pkgbuild_text self distributor license_text).1.(description) →
   get_pkgbuild_text
     (get_pkgbuild_text self distributor license_text).1
     distributor license_text =
   get_pkgbuild_text self distributor license_text).
Proof.
  split; [done|]. rewrite get_pkgbuild_text_object.
  unfold get_pkgbuild_text, get_pkgbuild_entries, described.
  destruct self. cbn. intros ->. reflexivity.
Qed.

(** ** Further properties: the builder's object and [regenerate_pkg] *)

Lemma attributes_identity (a b : PkgBuild) :
  attributes_besides_buckets a = attributes_besides_buckets b →
  a.(distro) = b.(distro) ∧ a.(src_uri) = b.(src_uri) ∧
  a.(keys) = b.(keys) ∧ a.(version) = b.(version) ∧ a.(name) = b.(name) ∧
  a.(python_3) = b.(python_3).
Proof. intros [= ]. done. Qed.

(** The object of [arch_pkgbuild], when it returns one. *)
Lemma arch_pkgbuild_object (p : provider) (pkg_name : string)
    (has_patch_dir : bool) (log : list string) (built : PkgBuild) :
  arch_pkgbuild p pkg_name has_patch_dir = (log, Ok built) →
  built.(has_patches) = has_patch_dir ∧
  built.(python_3) = negb (Py.contains no_python3 pkg_name) ∧
  built.(distro) = Some p.(distro_name) ∧
  built.(src_uri) = Some p.(tar_uri) ∧
  map to_string built.(keys) = ["~x86"; "~amd64"; "~arm"; "~arm64"] ∧
  built.(version) = None ∧
  built.(name) = None ∧
  all_buckets built = all_buckets (classified p).
Proof.
  destruct (attributes_identity _ _
    (insert_depends_attributes p
       (set_src_uri (Some p.(tar_uri))
          (set_distro (Some p.(distro_name)) PkgBuild_init))))
    as (Hdistro & Huri & Hkeys & Hversion & Hname & Hpython).
  unfold arch_pkgbuild, _gen_pkgbuild_for_package.
  destruct (package_xml p) as [pkg_xml|e]; cbn [mbind result_bind].
  - destruct (PackageMetadata_init pkg_xml) as [pkg|e];
      cbn [mbind result_bind]; [|discriminate].
    intros [= <- <-].
    destruct (Py.contains no_python3 pkg_name); cbn;
      rewrite ?Hdistro, ?Huri, ?Hkeys, ?Hversion, ?Hname, ?Hpython;
      repeat split.
  - intros [= <- <-].
    destruct (Py.contains no_python3 pkg_name); cbn;
      rewrite ?Hdistro, ?Huri, ?Hkeys, ?Hversion, ?Hname, ?Hpython;
      repeat split.
Qed.

(** X15. The object [arch_pkgbuild] returns has [has_patches] as given,
    [python_3] false exactly for a package of [no_python3], the
    distribution and the archive of the provider, the four keywords
    [x86], [amd64], [arm], [arm64], all unstable, and neither name nor
    version: rendering it as it is raises [AttributeError]. *)
Theorem arch_pkgbuild_not_yet_renderable (p : provider) (pkg_name : string)
    (has_patch_dir : bool) (log : list string) (built : PkgBuild) :
  arch_pkgbuild p pkg_name has_patch_dir = (log, Ok built) →
  built.(has_patches) = has_patch_dir ∧
  (built.(python_3) = false ↔ pkg_name ∈ no_python3) ∧
  built.(distro) = Some p.(distro_name) ∧
  built.(src_uri) = Some p.(tar_uri) ∧
  map to_string built.(keys) = ["~x86"; "~amd64"; "~arm"; "~arm64"] ∧
  (pkgbuild_text built).2 = Raise AttributeError.
Proof.
  intros Hmade.
  destruct (arch_pkgbuild_object _ _ _ _ _ Hmade)
    as (Hpatches & Hpython & Hdistro & Huri & Hkeys & Hversion & _).
  repeat split; try done.
  - rewrite Hpython, negb_false_iff. apply contains_true.
  - rewrite Hpython, negb_false_iff. apply contains_true.
  - unfold pkgbuild_text. rewrite get_pkgbuild_text_entries.
    unfold get_pkgbuild_entries. cbn [snd version set_description].
    by rewrite Hversion.
Qed.

(** X16. For a known package that is not kept, whose recipe object the
    builder returns and whose version has a [-], [regenerate_pkg] logs the
    success after the builder's lines and returns the object and its
    text: the object has the package as name, the version, the patches
    and the ROS 2 flag as given, the buckets of the builder's loops, and
    the text names the package [ros-<distro>-<pkg>]. *)
Theorem regenerate_pkg_generated (p : provider) (pkg v : string)
    (pkg_patches : option (list string)) (ros2 has_patch_dir : bool)
    (log : list string) (built : PkgBuild) :
  pkg ∈ p.(package_names) →
  arch_pkgbuild p pkg has_patch_dir = (log, Ok built) →
  has_char "-" v = true →
  ∃ current entries,
    regenerate_pkg p pkg (Some v) pkg_patches ros2 has_patch_dir false =
      (log ++ ["Successfully generated pkgbuild for package '" +:+ pkg +:+
               "'."],
       Ok (Generated current (Py.join nl entries))) ∧
    current.(name) = Some pkg ∧
    current.(version) = Some v ∧
    current.(patches) = pkg_patches ∧
    current.(is_ros2) = ros2 ∧
    current.(has_patches) = has_patch_dir ∧
    all_buckets current = all_buckets (classified p) ∧
    entries !! 2 =
      Some ("pkgname='ros-" +:+ p.(distro_name) +:+ "-" +:+ pkg +:+ "'").
Proof.
  intros Hin Hmade Hsep.
  destruct (arch_pkgbuild_object _ _ _ _ _ Hmade)
    as (Hpatches & _ & Hdistro & _ & _ & _ & _ & Hbuckets).
  unfold regenerate_pkg. apply contains_true in Hin. rewrite Hin.
  cbn [negb]. rewrite Hmade. unfold pkgbuild_text.
  match goal with
  | |- context [get_pkgbuild_text ?m ?d ?l] =>
      pose proof (get_pkgbuild_text_object m d l) as Hobject;
      pose proof (get_pkgbuild_text_entries m d l) as Htext;
      unfold get_pkgbuild_entries in Htext;
      cbn [snd version set_description set_is_ros2 set_patches set_version
             attr_split mbind result_bind] in Htext;
      rewrite index_split_0, (index_split_1 _ _ Hsep) in Htext;
      destruct (get_pkgbuild_text m d l) as [after outcome]
  end.
  cbn [fst snd result_map] in Hobject, Htext. subst after outcome.
  eexists _, _. split; [reflexivity|].
  cbn. rewrite Hdistro. repeat split; done.
Qed.


(** ** Further properties: what no call undoes *)

Lemma perform_grows (self : PkgBuild) (c : call) :
  Forall2 prefix (all_buckets self) (all_buckets (perform self c)).
Proof.
  assert (∀ (l : list string) x, l `prefix_of` l ++ [x]) as Hgrow
    by (intros l x; by apply prefix_app_r).
  destruct c; cbn [perform];
    rewrite ?get_pkgbuild_text_object;
    unfold add_build_depend, add_run_depend, add_test_depend, add_keyword,
      described, all_buckets, build_run_buckets, test_buckets;
    repeat case_match; cbn; repeat constructor; done.
Qed.

Lemma buckets_grow_trans (a b c : PkgBuild) :
  Forall2 prefix (all_buckets a) (all_buckets b) →
  Forall2 prefix (all_buckets b) (all_buckets c) →
  Forall2 prefix (all_buckets a) (all_buckets c).
Proof.
  unfold all_buckets, build_run_buckets, test_buckets. cbn [app].
  intros Hab Hbc.
  repeat match goal with
         | H : Forall2 _ (_ :: _) (_ :: _) |- _ =>
             apply Forall2_cons_1 in H as [? H]
         end.
  repeat constructor; etrans; eassumption.
Qed.

(** X18. No call removes or reorders a dependency: after any calls on an
    object, each of its six buckets begins with what it held before. *)
Theorem buckets_only_grow (self : PkgBuild) (calls : list call) :
  Forall2 prefix (all_buckets self) (all_buckets (foldl perform self calls)).
Proof.
  apply (foldl_preserves perform
           (λ m, Forall2 prefix (all_buckets self) (all_buckets m))).
  - intros m c Hm. apply (buckets_grow_trans _ m); [done|].
    apply perform_grows.
  - unfold all_buckets, build_run_buckets, test_buckets. cbn [app].
    repeat (constructor; [reflexivity|]). constructor.
Qed.

Lemma slice_from_short (s : string) :
  String.length s ≤ 1 → Py.slice_from 1 s = EmptyString.
Proof.
  destruct s as [|c [|c' s]]; cbn [String.length Py.slice_from]; [done..|lia].
Qed.

(** X19. A version whose piece after the first [-] has at most one
    character (as in [1.2.3-] and [1.2.3-r]) is rendered, with an empty
    [pkgrel]: the render does not fail on a missing release number. *)
Theorem short_release_renders_empty_pkgrel (self : PkgBuild)
    (v distributor license_text : string) :
  self.(version) = Some v →
  has_char "-" v = true →
  String.length (before_first "-" (after_first "-" v)) ≤ 1 →
  ∃ entries,
    (get_pkgbuild_text self distributor license_text).2 =
      Ok (Py.join nl entries) ∧
    entries !! 7 = Some "pkgrel=".
Proof.
  intros Hv Hsep Hshort.
  destruct (entries_with_separator self v distributor license_text Hv Hsep)
    as (pkgname & pkgdesc & url & license & groups & source & Hentries).
  eexists. rewrite get_pkgbuild_text_entries, Hentries.
  split; [reflexivity|]. cbn [lookup list_lookup].
  by rewrite (slice_from_short _ Hshort).
Qed.

End Generator.

(** ** The theorems at the sample inputs *)

(** C1: the render of an object with the build type [unknown] returns a
    recipe text and raises nothing. *)
Lemma unknown_build_type_renders :
  build_type (set_build_type "unknown" (sample_recipe "1.2.3-r4")) = "unknown" ∧
  ("unknown" ∉ recognized_build_types) ∧
  ∃ text,
    (get_pkgbuild_text sanitize_string_model sample_trim
       (set_build_type "unknown" (sample_recipe "1.2.3-r4"))
       org org_license).2 = Ok text.
Proof.
  split; [reflexivity|]. split; [compute_done|].
  eexists. vm_compute. reflexivity.
Qed.

Lemma unknown_build_type_witness :
  get_inherit_line (set_build_type "unknown" (sample_recipe "1.2.3-r4")) =
    Raise (UnknownBuildType "unknown") ∧
  ∀ distributor license_text unknown,
    (get_pkgbuild_text sanitize_string_model sample_trim
       (set_build_type "unknown" (sample_recipe "1.2.3-r4"))
       distributor license_text).2 ≠ Raise (UnknownBuildType unknown).
Proof.
  apply (unknown_build_type_raised_by_inherit_line sanitize_string_model
           sample_trim (set_build_type "unknown" (sample_recipe "1.2.3-r4"))).
  compute_done.
Defined.

(** C2: a name of [depend_only_pkgs] that is not internal enters the
    external build bucket and neither run bucket; and a name inserted once
    as internal and once as external is in both run buckets. *)
Lemma depend_only_pkg_enters_build_bucket :
  "dev-util/gperf" ∈ depend_only_pkgs ∧
  (add_run_depend "dev-util/gperf" false PkgBuild_init).(rdepends_external) = [] ∧
  (add_run_depend "dev-util/gperf" false PkgBuild_init).(rdepends) = [] ∧
  (add_run_depend "dev-util/gperf" false PkgBuild_init).(depends_external) =
    ["dev-util/gperf"] ∧
  (add_run_depend "roscpp" false
     (add_run_depend "roscpp" true PkgBuild_init)).(rdepends) = ["roscpp"] ∧
  (add_run_depend "roscpp" false
     (add_run_depend "roscpp" true PkgBuild_init)).(rdepends_external) =
    ["roscpp"].
Proof. split; [compute_done|]. repeat split. Qed.

Lemma add_run_depend_routing_witness :
  (add_run_depend "dev-util/gperf" false PkgBuild_init).(depends_external) =
    ["dev-util/gperf"] ∧
  (add_run_depend "dev-util/gperf" false PkgBuild_init).(rdepends) = [] ∧
  (add_run_depend "dev-util/gperf" false PkgBuild_init).(rdepends_external) = [].
Proof.
  apply (proj1 (add_run_depend_routing "dev-util/gperf" false PkgBuild_init)).
  - compute_done.
  - reflexivity.
Defined.

(** C3: a name that is a run dependency and a test dependency is held by
    two of the six buckets, after two calls on a new object as after the
    builder's insertions for the sample package. *)
Lemma run_and_test_dependency_in_two_buckets :
  holders "roscpp" (all_buckets (add_run_depend "roscpp" true PkgBuild_init)) = 1 ∧
  holders "roscpp"
    (all_buckets
       (add_test_depend "roscpp" true
          (add_run_depend "roscpp" true PkgBuild_init))) = 2 ∧
  holders "roscpp"
    (all_buckets
       (insert_depends (sample_provider (Ok sample_xml)) PkgBuild_init)) = 2.
Proof. repeat split; vm_compute; reflexivity. Qed.

Lemma insert_depends_exclusive_witness :
  holders "roscpp"
    (build_run_buckets
       (insert_depends (sample_provider (Ok sample_xml)) PkgBuild_init)) ≤ 1 ∧
  holders "roscpp"
    (test_buckets
       (insert_depends (sample_provider (Ok sample_xml)) PkgBuild_init)) ≤ 1.
Proof.
  apply (insert_depends_exclusive (sample_provider (Ok sample_xml))
           PkgBuild_init "roscpp").
  reflexivity.
Defined.

(** C6 at a run dependency and at a name that is none. *)
Lemma add_build_depend_effect_witness :
  add_build_depend "roscpp" true (add_run_depend "roscpp" true PkgBuild_init) =
    add_run_depend "roscpp" true PkgBuild_init ∧
  (add_build_depend "catkin" true
     (add_build_depend "catkin" true
        (add_run_depend "roscpp" true PkgBuild_init))).(depends) =
    ["catkin"; "catkin"].
Proof.
  split.
  - apply (proj1 (add_build_depend_effect "roscpp" true
                    (add_run_depend "roscpp" true PkgBuild_init))).
    left. compute_done.
  - destruct (proj2 (add_build_depend_effect "catkin" true
                       (add_run_depend "roscpp" true PkgBuild_init)))
      as [Hinternal _]; [compute_done|compute_done|].
    destruct (Hinternal eq_refl) as (_ & _ & _ & Htwice). exact Htwice.
Defined.

(** C7: with two separators in the version, the [pkgrel] entry is not the
    substring after the first one without its first character. The lemma
    after it has the two versions of the specification's examples. *)
Lemma pkgrel_stops_at_second_separator :
  has_char "-" "1.2.3-r4-5" = true ∧
  ((get_pkgbuild_entries sanitize_string_model sample_trim
      (sample_recipe "1.2.3-r4-5") org org_license).2
   ≫= (λ entries, index entries 7)) = Ok "pkgrel=4" ∧
  "pkgrel=" +:+ Py.slice_from 1 (after_first "-" "1.2.3-r4-5") = "pkgrel=4-5" ∧
  "pkgrel=4" ≠ "pkgrel=4-5".
Proof. repeat split; try (vm_compute; reflexivity). discriminate. Qed.

Lemma pkgver_pkgrel_entries_witness :
  (∃ entries,
     (get_pkgbuild_text sanitize_string_model sample_trim
        (sample_recipe "1.2.3-r4") org org_license).2 =
       Ok (Py.join nl entries) ∧
     entries !! 5 = Some "pkgver=1.2.3" ∧
     entries !! 7 = Some "pkgrel=4" ∧
     (has_char "-" "r4" = false → entries !! 7 = Some "pkgrel=4")) ∧
  (∃ entries,
     (get_pkgbuild_text sanitize_string_model sample_trim
        (sample_recipe "0.9.0-p10") org org_license).2 =
       Ok (Py.join nl entries) ∧
     entries !! 5 = Some "pkgver=0.9.0" ∧
     entries !! 7 = Some "pkgrel=10" ∧
     (has_char "-" "p10" = false → entries !! 7 = Some "pkgrel=10")).
Proof.
  split.
  - apply (pkgver_pkgrel_entries sanitize_string_model sample_trim
             (sample_recipe "1.2.3-r4") "1.2.3-r4" org org_license);
      reflexivity.
  - apply (pkgver_pkgrel_entries sanitize_string_model sample_trim
             (sample_recipe "0.9.0-p10") "0.9.0-p10" org org_license);
      reflexivity.
Defined.

(** C8 at the version [1.2.3]. *)
Lemma version_without_separator_witness :
  (get_pkgbuild_text sanitize_string_model sample_trim
     (sample_recipe "1.2.3") org org_license).2 = Raise IndexError ∧
  regenerate_pkg sanitize_string_model sample_trim PackageMetadata_model
    (sample_provider (Ok sample_xml)) "foo" (Some "1.2.3") None true false
    false = ([], Raise IndexError).
Proof.
  destruct (version_without_separator_raises sanitize_string_model
              sample_trim PackageMetadata_model "1.2.3" eq_refl)
    as [Hrender Hregenerate].
  split.
  - apply Hrender. reflexivity.
  - eapply Hregenerate.
    + compute_done.
    + reflexivity.
Defined.

(** C9 at an object with the external build dependency [python3-numpy]. *)
Lemma makedepends_entry_rendered_witness :
  ∃ entries,
    (get_pkgbuild_text sanitize_string_model sample_trim
       (sample_recipe "1.2.3-r4") org org_license).2 =
      Ok (Py.join nl entries) ∧
    entries !! 11 = Some "makedepends=(ros-humble-roscpp python-numpy)" ∧
    (∀ dep, dep ∈ ["python3-numpy"] →
            python3_to_python dep ∈ ["ros-humble-roscpp"; "python-numpy"]) ∧
    ("python3-numpy" ∈ ["python3-numpy"] →
     "python-numpy" ∈ ["ros-humble-roscpp"; "python-numpy"]).
Proof.
  apply (makedepends_entry_rendered sanitize_string_model sample_trim
           (sample_recipe "1.2.3-r4") "1.2.3-r4" org org_license);
    reflexivity.
Defined.

(** C10 at a fetch that fails and at one that succeeds. *)
Lemma metadata_fetch_outcome_witness :
  (∃ built,
     _gen_pkgbuild_for_package PackageMetadata_model
       (sample_provider (Raise (OtherException "timed out"))) "foo" =
       (["fetch metadata for package foo"], Ok built) ∧
     all_buckets built =
       all_buckets
         (classified (sample_provider (Raise (OtherException "timed out")))) ∧
     built.(upstream_license) = ["LGPL-2"] ∧
     built.(description) = "" ∧
     built.(homepage) = "https://wiki.ros.org" ∧
     built.(build_type) = "catkin") ∧
  (∃ built,
     _gen_pkgbuild_for_package PackageMetadata_model
       (sample_provider (Ok sample_xml)) "foo" = ([], Ok built) ∧
     all_buckets built = all_buckets (classified (sample_provider (Ok sample_xml))) ∧
     built.(upstream_license) = ["BSD"] ∧
     built.(description) = "A package (of sorts)" ∧
     built.(homepage) = "https://example.org/foo" ∧
     built.(build_type) = "ament_cmake").
Proof.
  split.
  - apply (proj1 (metadata_fetch_outcome PackageMetadata_model
                    (sample_provider (Raise (OtherException "timed out")))
                    "foo") (OtherException "timed out")).
    reflexivity.
  - apply (proj2 (metadata_fetch_outcome PackageMetadata_model
                    (sample_provider (Ok sample_xml)) "foo")
             sample_xml
             (mkPackageMetadata ["BSD"] "A package (of sorts)"
                "https://example.org/foo" "ament_cmake")).
    + reflexivity.
    + reflexivity.
Defined.

(** ** Further properties: how insertions compose *)

(** X11. An insertion of a test dependency commutes with an insertion of
    a build dependency, of a run dependency and of a keyword: the test
    buckets are independent of the rest of the object. *)
Theorem add_test_depend_commutes (t d : string) (it i : bool) (self : PkgBuild) :
  add_test_depend t it (add_build_depend d i self) =
    add_build_depend d i (add_test_depend t it self) ∧
  add_test_depend t it (add_run_depend d i self) =
    add_run_depend d i (add_test_depend t it self) ∧
  add_test_depend t it (add_keyword d i self) =
    add_keyword d i (add_test_depend t it self).
Proof.
  unfold add_test_depend, add_build_depend, add_run_depend, add_keyword.
  destruct it, i; simpl; repeat case_match; done.
Qed.

(** X12. The order of a run and a build insertion of one name matters.
    When the run insertion goes to a run bucket (the name is internal or
    is none of [depend_only_pkgs]), a build insertion after it changes
    nothing; a build insertion before it, on an object that holds the
    name in no run bucket, leaves the name in a build bucket and in a run
    bucket. *)
Theorem build_run_order (d : string) (ib ir : bool) (self : PkgBuild) :
  ir = true ∨ d ∉ depend_only_pkgs →
  add_build_depend d ib (add_run_depend d ir self) = add_run_depend d ir self ∧
  (d ∉ self.(rdepends) → d ∉ self.(rdepends_external) →
   (d ∈ (add_run_depend d ir (add_build_depend d ib self)).(depends) ∨
    d ∈ (add_run_depend d ir (add_build_depend d ib self)).(depends_external)) ∧
   (d ∈ (add_run_depend d ir (add_build_depend d ib self)).(rdepends) ∨
    d ∈ (add_run_depend d ir (add_build_depend d ib self)).(rdepends_external))).
Proof.
  intros Hrun.
  assert (Py.contains depend_only_pkgs d && negb ir = false) as Hroute.
  { destruct Hrun as [->|Hnot]; [apply andb_false_r|].
    apply contains_false in Hnot. by rewrite Hnot. }
  split.
  - unfold add_run_depend. rewrite Hroute.
    assert (∀ l : list string, Py.contains (l ++ [d]) d = true) as Hlast.
    { intros l. apply contains_true, elem_of_app. right.
      by apply list_elem_of_singleton. }
    unfold add_build_depend.
    destruct ir; cbn [rdepends rdepends_external set_rdepends
      set_rdepends_external]; rewrite Hlast; [done|by case_match].
  - intros Hint Hext.
    apply contains_false in Hint. apply contains_false in Hext.
    unfold add_run_depend, add_build_depend. rewrite Hint, Hext, Hroute.
    destruct ib, ir;
      cbn [depends depends_external rdepends rdepends_external set_depends
             set_depends_external set_rdepends set_rdepends_external];
      (split; [first [left; apply elem_of_app; right;
                      by apply list_elem_of_singleton
                     |right; apply elem_of_app; right;
                      by apply list_elem_of_singleton]
              |first [left; apply elem_of_app; right;
                      by apply list_elem_of_singleton
                     |right; apply elem_of_app; right;
                      by apply list_elem_of_singleton]]).
Qed.

(** ** Further properties: the buckets the builder fills *)

(** A loop of insertions that each append to a bucket the inserted name
    when it passes a test, under an invariant of the loop, appends the
    names that pass, in order. *)
Lemma foldl_bucket_filter {A : Type} (f : A → string → A)
    (bucket : A → list string) (P : string → Prop) `{!∀ x, Decision (P x)}
    (I : A → Prop) (l : list string) (m : A) :
  (∀ m x, I m → I (f m x)) →
  (∀ m x, I m → bucket (f m x) = bucket m ++ (if decide (P x) then [x] else [])) →
  I m →
  bucket (foldl f m l) = bucket m ++ filter P l.
Proof.
  intros Hkeep Hstep. revert m.
  induction l as [|x l IH]; intros m Hm; simpl.
  - by rewrite filter_nil, app_nil_r.
  - rewrite (IH _ (Hkeep _ x Hm)), (Hstep _ _ Hm), filter_cons.
    case_decide; by rewrite <- app_assoc.
Qed.

Lemma add_run_depend_appends (names : list string) (x : string) (self : PkgBuild) :
  (add_run_depend x (Py.contains names x) self).(rdepends) =
    self.(rdepends) ++ (if decide (x ∈ names) then [x] else []) ∧
  (add_run_depend x (Py.contains names x) self).(rdepends_external) =
    self.(rdepends_external) ++
    (if decide ((x ∉ names) ∧ x ∉ depend_only_pkgs) then [x] else []) ∧
  (add_run_depend x (Py.contains names x) self).(depends_external) =
    self.(depends_external) ++
    (if decide ((x ∉ names) ∧ x ∈ depend_only_pkgs) then [x] else []) ∧
  (add_run_depend x (Py.contains names x) self).(depends) = self.(depends) ∧
  (add_run_depend x (Py.contains names x) self).(tdepends) = self.(tdepends) ∧
  (add_run_depend x (Py.contains names x) self).(tdepends_external) =
    self.(tdepends_external).
Proof.
  unfold add_run_depend, Py.contains.
  repeat case_bool_decide; repeat case_decide; simpl;
    rewrite ?app_nil_r; repeat split; tauto.
Qed.

Lemma add_build_depend_appends (names : list string) (x : string) (self : PkgBuild) :
  (add_build_depend x (Py.contains names x) self).(depends) =
    self.(depends) ++
    (if decide (x ∈ names ∧ (x ∉ self.(rdepends)) ∧
                x ∉ self.(rdepends_external))
     then [x] else []) ∧
  (add_build_depend x (Py.contains names x) self).(depends_external) =
    self.(depends_external) ++
    (if decide ((x ∉ names) ∧ (x ∉ self.(rdepends)) ∧
                x ∉ self.(rdepends_external))
     then [x] else []) ∧
  (add_build_depend x (Py.contains names x) self).(rdepends) = self.(rdepends) ∧
  (add_build_depend x (Py.contains names x) self).(rdepends_external) =
    self.(rdepends_external) ∧
  (add_build_depend x (Py.contains names x) self).(tdepends) = self.(tdepends) ∧
  (add_build_depend x (Py.contains names x) self).(tdepends_external) =
    self.(tdepends_external).
Proof.
  unfold add_build_depend, Py.contains.
  repeat case_bool_decide; repeat case_decide; simpl;
    rewrite ?app_nil_r; repeat split; tauto.
Qed.

Lemma add_test_depend_appends (names : list string) (x : string) (self : PkgBuild) :
  (add_test_depend x (Py.contains names x) self).(tdepends) =
    self.(tdepends) ++ (if decide (x ∈ names) then [x] else []) ∧
  (add_test_depend x (Py.contains names x) self).(tdepends_external) =
    self.(tdepends_external) ++ (if decide (x ∉ names) then [x] else []) ∧
  (add_test_depend x (Py.contains names x) self).(depends) = self.(depends) ∧
  (add_test_depend x (Py.contains names x) self).(depends_external) =
    self.(depends_external) ∧
  (add_test_depend x (Py.contains names x) self).(rdepends) = self.(rdepends) ∧
  (add_test_depend x (Py.contains names x) self).(rdepends_external) =
    self.(rdepends_external).
Proof.
  unfold add_test_depend, Py.contains.
  repeat case_bool_decide; repeat case_decide; simpl;
    rewrite ?app_nil_r; repeat split; tauto.
Qed.

Lemma run_loop (names l : list string) (self : PkgBuild) :
  let after := foldl (λ m x, add_run_depend x (Py.contains names x) m) self l in
  after.(rdepends) = self.(rdepends) ++ filter (λ x, x ∈ names) l ∧
  after.(rdepends_external) =
    self.(rdepends_external) ++
    filter (λ x, (x ∉ names) ∧ x ∉ depend_only_pkgs) l ∧
  after.(depends_external) =
    self.(depends_external) ++
    filter (λ x, (x ∉ names) ∧ x ∈ depend_only_pkgs) l ∧
  after.(depends) = self.(depends) ∧
  after.(tdepends) = self.(tdepends) ∧
  after.(tdepends_external) = self.(tdepends_external).
Proof.
  cbv zeta. repeat split.
  - apply (foldl_bucket_filter _ rdepends _ (λ _, True)); [done| |done].
    intros m x _. apply add_run_depend_appends.
  - apply (foldl_bucket_filter _ rdepends_external _ (λ _, True)); [done| |done].
    intros m x _. apply add_run_depend_appends.
  - apply (foldl_bucket_filter _ depends_external _ (λ _, True)); [done| |done].
    intros m x _. apply add_run_depend_appends.
  - apply (foldl_preserves _ (λ m, m.(depends) = self.(depends))); [|done].
    intros m x <-. apply add_run_depend_appends.
  - apply (foldl_preserves _ (λ m, m.(tdepends) = self.(tdepends))); [|done].
    intros m x <-. apply add_run_depend_appends.
  - apply (foldl_preserves _
             (λ m, m.(tdepends_external) = self.(tdepends_external))); [|done].
    intros m x <-. apply add_run_depend_appends.
Qed.

Lemma build_loop (names l : list string) (self : PkgBuild) :
  let after := foldl (λ m x, add_build_depend x (Py.contains names x) m) self l in
  after.(depends) =
    self.(depends) ++
    filter (λ x, x ∈ names ∧ (x ∉ self.(rdepends)) ∧
                 x ∉ self.(rdepends_external)) l ∧
  after.(depends_external) =
    self.(depends_external) ++
    filter (λ x, (x ∉ names) ∧ (x ∉ self.(rdepends)) ∧
                 x ∉ self.(rdepends_external)) l ∧
  after.(rdepends) = self.(rdepends) ∧
  after.(rdepends_external) = self.(rdepends_external) ∧
  after.(tdepends) = self.(tdepends) ∧
  after.(tdepends_external) = self.(tdepends_external).
Proof.
  cbv zeta.
  pose (I := λ m : PkgBuild,
          m.(rdepends) = self.(rdepends) ∧
          m.(rdepends_external) = self.(rdepends_external)).
  assert (∀ m x, I m → I (add_build_depend x (Py.contains names x) m)) as Hkeep.
  { intros m x [Hint Hext]. split.
    - rewrite <- Hint. apply add_build_depend_appends.
    - rewrite <- Hext. apply add_build_depend_appends. }
  repeat split.
  - apply (foldl_bucket_filter _ depends _ I); [done| |done].
    intros m x [Hint Hext]. rewrite <- Hint, <- Hext.
    apply add_build_depend_appends.
  - apply (foldl_bucket_filter _ depends_external _ I); [done| |done].
    intros m x [Hint Hext]. rewrite <- Hint, <- Hext.
    apply add_build_depend_appends.
  - by apply (foldl_preserves _ I).
  - by apply (foldl_preserves _ I).
  - apply (foldl_preserves _ (λ m, m.(tdepends) = self.(tdepends))); [|done].
    intros m x <-. apply add_build_depend_appends.
  - apply (foldl_preserves _
             (λ m, m.(tdepends_external) = self.(tdepends_external))); [|done].
    intros m x <-. apply add_build_depend_appends.
Qed.

Lemma test_loop (names l : list string) (self : PkgBuild) :
  let after := foldl (λ m x, add_test_depend x (Py.contains names x) m) self l in
  after.(tdepends) = self.(tdepends) ++ filter (λ x, x ∈ names) l ∧
  after.(tdepends_external) =
    self.(tdepends_external) ++ filter (λ x, x ∉ names) l ∧
  after.(depends) = self.(depends) ∧
  after.(depends_external) = self.(depends_external) ∧
  after.(rdepends) = self.(rdepends) ∧
  after.(rdepends_external) = self.(rdepends_external).
Proof.
  cbv zeta. repeat split.
  - apply (foldl_bucket_filter _ tdepends _ (λ _, True)); [done| |done].
    intros m x _. apply add_test_depend_appends.
  - apply (foldl_bucket_filter _ tdepends_external _ (λ _, True)); [done| |done].
    intros m x _. apply add_test_depend_appends.
  - apply (foldl_preserves _ (λ m, m.(depends) = self.(depends))); [|done].
    intros m x <-. apply add_test_depend_appends.
  - apply (foldl_preserves _
             (λ m, m.(depends_external) = self.(depends_external))); [|done].
    intros m x <-. apply add_test_depend_appends.
  - apply (foldl_preserves _ (λ m, m.(rdepends) = self.(rdepends))); [|done].
    intros m x <-. apply add_test_depend_appends.
  - apply (foldl_preserves _
             (λ m, m.(rdepends_external) = self.(rdepends_external))); [|done].
    intros m x <-. apply add_test_depend_appends.
Qed.

(** The six buckets after the four loops of the builder, from an object
    whose buckets are empty. *)
Lemma insert_depends_buckets (p : provider) (self : PkgBuild) :
  all_buckets self = [[]; []; []; []; []; []] →
  let names := p.(package_names) in
  let run := p.(run_depends) in
  let build := p.(build_depends) ++ p.(buildtool_depends) in
  let after := insert_depends p self in
  after.(rdepends) = filter (λ d, d ∈ names) run ∧
  after.(rdepends_external) =
    filter (λ d, (d ∉ names) ∧ d ∉ depend_only_pkgs) run ∧
  after.(tdepends) = filter (λ d, d ∈ names) p.(test_depends) ∧
  after.(tdepends_external) = filter (λ d, d ∉ names) p.(test_depends) ∧
  after.(depends) = filter (λ d, d ∈ names ∧ d ∉ run) build ∧
  after.(depends_external) =
    filter (λ d, (d ∉ names) ∧ d ∈ depend_only_pkgs) run ++
    filter (λ d, (d ∉ names) ∧ ((d ∉ run) ∨ d ∈ depend_only_pkgs)) build.
Proof.
  intros [= Hb Hbe Hr Hre Ht Hte]. cbv zeta. unfold insert_depends.
  rewrite <- (foldl_app _ (build_depends p) (buildtool_depends p)).
  set (names := package_names p).
  set (m1 := foldl _ self (run_depends p)).
  set (m2 := foldl _ m1 (build_depends p ++ buildtool_depends p)).
  destruct (run_loop names (run_depends p) self)
    as (Hr1 & Hre1 & Hbe1 & Hb1 & Ht1 & Hte1).
  destruct (build_loop names (build_depends p ++ buildtool_depends p) m1)
    as (Hb2 & Hbe2 & Hr2 & Hre2 & Ht2 & Hte2).
  destruct (test_loop names (test_depends p) m2)
    as (Ht3 & Hte3 & Hb3 & Hbe3 & Hr3 & Hre3).
  fold m1 in Hr1, Hre1, Hbe1, Hb1, Ht1, Hte1.
  fold m1 m2 in Hb2, Hbe2, Hr2, Hre2, Ht2, Hte2.
  fold m2 in Ht3, Hte3, Hb3, Hbe3, Hr3, Hre3.
  rewrite Hr in Hr1. rewrite Hre in Hre1. rewrite Hbe in Hbe1.
  rewrite Hb in Hb1. rewrite Ht in Ht1. rewrite Hte in Hte1.
  simpl in Hr1, Hre1, Hbe1.
  rewrite Hr3, Hr2, Hre3, Hre2, Ht3, Ht2, Ht1, Hte3, Hte2, Hte1, Hb3, Hb2,
    Hb1, Hbe3, Hbe2, Hbe1.
  repeat split; try done.
  - simpl. apply list_filter_iff. intros d.
    rewrite Hr1, Hre1, !list_elem_of_filter. tauto.
  - f_equal. apply list_filter_iff. intros d.
    rewrite Hr1, Hre1, !list_elem_of_filter.
    destruct (decide (d ∈ run_depends p));
      destruct (decide (d ∈ depend_only_pkgs)); tauto.
Qed.

(** X13. After the builder's loops on an object with empty buckets, the
    run buckets hold the run dependencies and the test buckets the test
    dependencies, each in the provider's order and as often as listed: the
    internal bucket those that are packages of the distribution, the
    external bucket the others, except that a run dependency of
    [depend_only_pkgs] that is no package is in neither run bucket. *)
Theorem insert_depends_run_test_buckets (p : provider) (self : PkgBuild) :
  all_buckets self = [[]; []; []; []; []; []] →
  (insert_depends p self).(rdepends) =
    filter (λ d, d ∈ p.(package_names)) p.(run_depends) ∧
  (insert_depends p self).(rdepends_external) =
    filter (λ d, (d ∉ p.(package_names)) ∧ d ∉ depend_only_pkgs)
      p.(run_depends) ∧
  (insert_depends p self).(tdepends) =
    filter (λ d, d ∈ p.(package_names)) p.(test_depends) ∧
  (insert_depends p self).(tdepends_external) =
    filter (λ d, d ∉ p.(package_names)) p.(test_depends).
Proof.
  intros Hempty.
  destruct (insert_depends_buckets p self Hempty)
    as (Hr & Hre & Ht & Hte & _). done.
Qed.

(** X14. After the builder's loops on an object with empty buckets, the
    internal build bucket holds the build and buildtool dependencies, in
    this order, that are packages of the distribution and no run
    dependencies; the external build bucket holds the run dependencies of
    [depend_only_pkgs] that are no packages, then the build and buildtool
    dependencies that are no packages and are no run dependencies or are
    of [depend_only_pkgs]. *)
Theorem insert_depends_build_buckets (p : provider) (self : PkgBuild) :
  all_buckets self = [[]; []; []; []; []; []] →
  (insert_depends p self).(depends) =
    filter (λ d, d ∈ p.(package_names) ∧ d ∉ p.(run_depends))
      (p.(build_depends) ++ p.(buildtool_depends)) ∧
  (insert_depends p self).(depends_external) =
    filter (λ d, (d ∉ p.(package_names)) ∧ d ∈ depend_only_pkgs)
      p.(run_depends) ++
    filter (λ d, (d ∉ p.(package_names)) ∧
                 ((d ∉ p.(run_depends)) ∨ d ∈ depend_only_pkgs))
      (p.(build_depends) ++ p.(buildtool_depends)).
Proof.
  intros Hempty.
  destruct (insert_depends_buckets p self Hempty)
    as (_ & _ & _ & _ & Hb & Hbe). done.
Qed.

(** ** The further properties at sample inputs *)

(** The object [arch_pkgbuild] returns for the sample package. *)
Definition sample_built (pkg_name : string) : PkgBuild :=
  match (arch_pkgbuild PackageMetadata_model (sample_provider (Ok sample_xml))
           pkg_name true).2 with
  | Ok built => built
  | Raise _ => PkgBuild_init
  end.

(** A recipe object with run dependencies and a description. *)
Definition sample_run_recipe : PkgBuild :=
  set_description "A package (of sorts)"
    (set_rdepends_external ["python3-yaml"]
       (set_rdepends ["roscpp"] (sample_recipe "1.2.3-r4"))).

Lemma get_inherit_line_recognized_witness :
  get_inherit_line (set_build_type "cmake" PkgBuild_init) =
  Ok ("inherit ros-cmake" +:+ nl +:+ nl).
Proof.
  apply (proj2 (get_inherit_line_recognized
                  (set_build_type "cmake" PkgBuild_init))).
  compute_done.
Defined.

Lemma get_python_compat_outcome_witness :
  get_python_compat ["3_10"; "3_11"] =
  Ok ("PYTHON_COMPAT=( python" +:+
      ("{" +:+ Py.join "," ["3_10"; "3_11"] +:+ "}") +:+ " )" +:+ nl +:+ nl).
Proof.
  apply (proj2 (proj2 (get_python_compat_outcome ["3_10"; "3_11"]))).
  simpl. lia.
Defined.

Lemma previous_version_of_stem_witness :
  previous_version "/overlay/ros-humble/foo/"
    ("/overlay/ros-humble/foo/" +:+ "1.2.3-r4" +:+ ".pkgbuild") = "1.2.3-r4".
Proof.
  apply (previous_version_of_stem "/overlay/ros-humble/foo/" "1.2.3-r4"
           ".2.3-r4" "1"%char "4"%char); reflexivity.
Defined.

(** A version that ends with [b] loses it. *)
Lemma previous_version_edges_witness :
  previous_version "/o/" "/o/1.0b.pkgbuild" = "1.0" ∧
  has_char "0" ".pkgbuild" = false.
Proof.
  split; [reflexivity|].
  apply (proj2 (previous_version_edges "/o/" "/o/1.0b.pkgbuild")).
  reflexivity.
Defined.

Lemma depends_entry_rendered_witness :
  ∃ entries,
    (get_pkgbuild_text sanitize_string_model sample_trim sample_run_recipe
       org org_license).2 = Ok (Py.join nl entries) ∧
    entries !! 12 = Some "depends=(ros-humble-roscpp python-yaml)" ∧
    ["ros-humble-roscpp"; "python-yaml"] =
      ["ros-humble-roscpp"] ++ ["python-yaml"].
Proof.
  apply (depends_entry_rendered sanitize_string_model sample_trim
           sample_run_recipe "1.2.3-r4" org org_license); reflexivity.
Defined.

Lemma render_entries_layout_witness :
  ∃ entries,
    (get_pkgbuild_text sanitize_string_model sample_trim sample_run_recipe
       org org_license).2 = Ok (Py.join nl entries) ∧
    length entries = 17 ∧
    Forall2 (λ key entry, Py.startswith key entry = true) entry_keys entries.
Proof.
  apply (render_entries_layout sanitize_string_model sample_trim
           sample_run_recipe "1.2.3-r4" org org_license); reflexivity.
Defined.

Lemma render_outcome_by_version_witness :
  (get_pkgbuild_text sanitize_string_model sample_trim PkgBuild_init
     org org_license).2 = Raise AttributeError.
Proof.
  apply (proj1 (render_outcome_by_version sanitize_string_model sample_trim
                  PkgBuild_init org org_license)).
  reflexivity.
Defined.

Lemma render_twice_witness :
  get_pkgbuild_text sanitize_string_model sample_trim
    (get_pkgbuild_text sanitize_string_model sample_trim sample_run_recipe
       org org_license).1 org org_license =
  get_pkgbuild_text sanitize_string_model sample_trim sample_run_recipe
    org org_license.
Proof.
  apply (proj2 (render_twice sanitize_string_model sample_trim
                  sample_run_recipe org org_license)).
  vm_compute. reflexivity.
Defined.

Lemma build_run_order_witness :
  add_build_depend "roscpp" true (add_run_depend "roscpp" true PkgBuild_init) =
    add_run_depend "roscpp" true PkgBuild_init ∧
  ("roscpp" ∉ PkgBuild_init.(rdepends) →
   "roscpp" ∉ PkgBuild_init.(rdepends_external) →
   ("roscpp" ∈ ["roscpp"] ∨ "roscpp" ∈ []) ∧
   ("roscpp" ∈ ["roscpp"] ∨ "roscpp" ∈ [])).
Proof.
  apply (build_run_order "roscpp" true true PkgBuild_init).
  left. reflexivity.
Defined.

Lemma insert_depends_run_test_buckets_witness :
  (insert_depends (sample_provider (Ok sample_xml)) PkgBuild_init).(rdepends) =
    ["roscpp"; "std_msgs"] ∧
  (insert_depends (sample_provider (Ok sample_xml))
     PkgBuild_init).(rdepends_external) = ["python3-yaml"] ∧
  (insert_depends (sample_provider (Ok sample_xml)) PkgBuild_init).(tdepends) =
    ["roscpp"] ∧
  (insert_depends (sample_provider (Ok sample_xml))
     PkgBuild_init).(tdepends_external) = ["gtest"].
Proof.
  apply (insert_depends_run_test_buckets (sample_provider (Ok sample_xml))
           PkgBuild_init).
  reflexivity.
Defined.

Lemma insert_depends_build_buckets_witness :
  (insert_depends (sample_provider (Ok sample_xml)) PkgBuild_init).(depends) =
    ["catkin"] ∧
  (insert_depends (sample_provider (Ok sample_xml))
     PkgBuild_init).(depends_external) =
    ["app-doc/doxygen"] ++ ["python3-numpy"; "app-doc/doxygen"].
Proof.
  apply (insert_depends_build_buckets (sample_provider (Ok sample_xml))
           PkgBuild_init).
  reflexivity.
Defined.

Lemma arch_pkgbuild_not_yet_renderable_witness :
  (sample_built "tf").(has_patches) = true ∧
  ((sample_built "tf").(python_3) = false ↔ "tf" ∈ no_python3) ∧
  (sample_built "tf").(distro) = Some "humble" ∧
  (sample_built "tf").(src_uri) =
    Some "https://example.org/foo-release.tar.gz" ∧
  map to_string (sample_built "tf").(keys) =
    ["~x86"; "~amd64"; "~arm"; "~arm64"] ∧
  (pkgbuild_text sanitize_string_model sample_trim (sample_built "tf")).2 =
    Raise AttributeError.
Proof.
  apply (arch_pkgbuild_not_yet_renderable sanitize_string_model sample_trim
           PackageMetadata_model (sample_provider (Ok sample_xml)) "tf" true
           [] (sample_built "tf")).
  reflexivity.
Defined.

Lemma regenerate_pkg_generated_witness :
  ∃ current entries,
    regenerate_pkg sanitize_string_model sample_trim PackageMetadata_model
      (sample_provider (Ok sample_xml)) "foo" (Some "1.2.3-r4") None true
      true false =
      (["Successfully generated pkgbuild for package 'foo'."],
       Ok (Generated current (Py.join nl entries))) ∧
    current.(name) = Some "foo" ∧
    current.(version) = Some "1.2.3-r4" ∧
    current.(patches) = None ∧
    current.(is_ros2) = true ∧
    current.(has_patches) = true ∧
    all_buckets current =
      all_buckets (classified (sample_provider (Ok sample_xml))) ∧
    entries !! 2 = Some "pkgname='ros-humble-foo'".
Proof.
  apply (regenerate_pkg_generated sanitize_string_model sample_trim
           PackageMetadata_model (sample_provider (Ok sample_xml)) "foo"
           "1.2.3-r4" None true true [] (sample_built "foo")).
  - compute_done.
  - reflexivity.
  - reflexivity.
Defined.


Lemma short_release_renders_empty_pkgrel_witness :
  ∃ entries,
    (get_pkgbuild_text sanitize_string_model sample_trim
       (sample_recipe "1.2.3-r") org org_license).2 =
      Ok (Py.join nl entries) ∧
    entries !! 7 = Some "pkgrel=".
Proof.
  apply (short_release_renders_empty_pkgrel sanitize_string_model
           sample_trim (sample_recipe "1.2.3-r") "1.2.3-r" org org_license).
  - reflexivity.
  - reflexivity.
  - simpl. lia.
Defined.
